(** * Car Tracker: a shallow embedding of the Express application

    The application is one Express server file (the request handlers) and
    the Mongoose schema [models/Car.js].  This development embeds

    - the fragment of JavaScript values and coercions the handlers rely on
      (truthiness, [||], [===], [<], [Number], [String.prototype.trim],
      [Array.prototype.includes]);
    - the document store behind Mongoose ([Car.create], [Car.updateOne],
      [Car.deleteOne], [Car.find], [User.findOne], [User.create],
      [User.findById]) as pure functions over lists of documents;
    - the session object of express-session;
    - every route handler of the server file, written in a small
      state-and-exception monad so that the definitions follow the source
      line by line;

    and then states and proves the properties of the specification.

    What is taken from the libraries the server runs on:

    - Mongoose casts what it is given against the schema: a [NaN] for a
      [Number] path and a malformed id for an [ObjectId] path are cast
      failures; numbers and booleans given for a [String] path are rendered.
    - [Model.create] applies the defaults and runs the validators of the
      schema; [Model.updateOne] runs no validators, drops the keys of [$set]
      whose value is [undefined], and stamps [updatedAt].
    - A query without [.sort] returns the documents in the order of the
      collection, the order of insertion.
    - bcrypt is a pair of functions on strings, [hash] and [compare]; what
      is assumed of them is said where it is used.
    - An [async] handler that throws has sent no response of its own; the
      outcome is recorded as [Unhandled], with the error. *)

From Stdlib Require Import String Ascii ZArith NArith List Bool Lia Permutation Sorted.
From Stdlib Require Import DecimalString.
Import ListNotations.

Local Open Scope string_scope.
Local Open Scope Z_scope.

(* ===================================================================== *)
(** * JavaScript values *)
(* ===================================================================== *)

Module JS.

(** Numbers.  The handlers only test numbers for zero, compare them with
    integer constants and hand them to Mongoose, so a number is modelled
    by its integer value, or [NaN]: [Num z] is the double whose value is the
    integer [z].  Doubles that are not integers (fractions, the infinities)
    are outside the model. *)
Inductive number : Type :=
| NaN
| Num (z : Z).

(** The values a parsed request body can hold in one of its fields.  A
    field that is absent reads as [JUndefined].  Nested arrays and objects
    are outside the model. *)
Inductive jsval : Type :=
| JUndefined
| JNull
| JBool (b : bool)
| JNum (n : number)
| JStr (s : string).

(** ToBoolean: what [!v], [v || w] and [if (v)] look at. *)
Definition truthy (v : jsval) : bool :=
  match v with
  | JUndefined | JNull => false
  | JBool b => b
  | JNum NaN => false
  | JNum (Num z) => negb (z =? 0)
  | JStr s => negb (s =? "")%string
  end.

(** [!v] *)
Definition js_not (v : jsval) : bool := negb (truthy v).

(** [v || w] *)
Definition js_or (v w : jsval) : jsval := if truthy v then v else w.

(** Strings are the UTF-8 bytes of the text.  The white space that
    [String.prototype.trim] and [Number] strip is WhiteSpace and
    LineTerminator of ECMAScript.  In one byte: TAB, LF, VT, FF, CR and
    SPACE. *)
Definition is_ws (c : ascii) : bool :=
  let n := nat_of_ascii c in
  ((9 <=? n)%nat && (n <=? 13)%nat) || (n =? 32)%nat.

(** In two bytes: U+00A0, the no-break space. *)
Definition is_ws2 (c1 c2 : ascii) : bool :=
  (nat_of_ascii c1 =? 194)%nat && (nat_of_ascii c2 =? 160)%nat.

(** In three bytes: U+1680; U+2000 to U+200A; U+2028 and U+2029, the line
    and paragraph separators; U+202F; U+205F; U+3000; and U+FEFF. *)
Definition is_ws3 (c1 c2 c3 : ascii) : bool :=
  let a := nat_of_ascii c1 in
  let b := nat_of_ascii c2 in
  let c := nat_of_ascii c3 in
  ((a =? 225) && (b =? 154) && (c =? 128))%nat ||
  ((a =? 226) && (b =? 128) &&
   (((128 <=? c) && (c <=? 138)) || (c =? 168) || (c =? 169) || (c =? 175)))%nat ||
  ((a =? 226) && (b =? 129) && (c =? 159))%nat ||
  ((a =? 227) && (b =? 128) && (c =? 128))%nat ||
  ((a =? 239) && (b =? 187) && (c =? 191))%nat.

(** [s.trimStart()] *)
Fixpoint trimStart (s : string) : string :=
  match s with
  | EmptyString => EmptyString
  | String c1 r1 =>
      if is_ws c1 then trimStart r1
      else
        match r1 with
        | EmptyString => s
        | String c2 r2 =>
            if is_ws2 c1 c2 then trimStart r2
            else
              match r2 with
              | EmptyString => s
              | String c3 r3 => if is_ws3 c1 c2 c3 then trimStart r3 else s
              end
        end
  end.

(** The text is white space throughout. *)
Definition blank (s : string) : bool :=
  match trimStart s with
  | EmptyString => true
  | _ => false
  end.

(** [s.trimEnd()]: the text up to where only white space follows. *)
Fixpoint trimEnd (s : string) : string :=
  match s with
  | EmptyString => EmptyString
  | String c r => if blank s then EmptyString else String c (trimEnd r)
  end.

(** [s.trim()] *)
Definition trim (s : string) : string := trimEnd (trimStart s).

Definition digit (c : ascii) : option Z :=
  let n := Z.of_nat (nat_of_ascii c) in
  if (48 <=? n) && (n <=? 57) then Some (n - 48) else None.

Fixpoint digits (s : string) (acc : Z) : option Z :=
  match s with
  | EmptyString => Some acc
  | String c r =>
      match digit c with
      | Some d => digits r (10 * acc + d)
      | None => None
      end
  end.

(** The double nearest to a natural number, ties going to the even
    significand of 53 bits.  Beyond the largest double the result is an
    infinity, for which the model has no value. *)
Definition nearest_double (z : Z) : number :=
  if z <? 2 ^ 53 then Num z
  else
    let e := Z.log2 z - 52 in
    let q := Z.shiftr z e in
    let r := z - Z.shiftl q e in
    let half := Z.shiftl 1 (e - 1) in
    let q' := if (half <? r) || ((r =? half) && Z.odd q) then q + 1 else q in
    let v := Z.shiftl q' e in
    if 2 ^ 1024 <=? v then NaN else Num v.

Definition unsigned_literal (s : string) : number :=
  match s with
  | EmptyString => NaN
  | _ => match digits s 0 with Some z => nearest_double z | None => NaN end
  end.

(** StringToNumber, on the literals whose value the model has: surrounding
    white space is dropped, the empty string is [0], and decimal digits
    with an optional sign are the nearest double.  A string that is no
    numeric literal is [NaN].  The literals of the other numbers, with a
    fraction, an exponent, a radix prefix or [Infinity], have no value in
    the model and come out as [NaN] too: what is stated of [Number] on
    strings is stated of the former only. *)
Definition StringToNumber (s : string) : number :=
  match trim s with
  | EmptyString => Num 0
  | String "-"%char r =>
      match unsigned_literal r with Num z => Num (- z) | NaN => NaN end
  | String "+"%char r => unsigned_literal r
  | t => unsigned_literal t
  end.

(** [Number(v)], i.e. ToNumber. *)
Definition Number (v : jsval) : number :=
  match v with
  | JUndefined => NaN
  | JNull => Num 0
  | JBool true => Num 1
  | JBool false => Num 0
  | JNum n => n
  | JStr s => StringToNumber s
  end.

(** [String(n)] for a number. *)
Definition NumberToString (n : number) : string :=
  match n with
  | NaN => "NaN"
  | Num z => NilZero.string_of_int (Z.to_int z)
  end.

(** [v < k] for a number constant [k]: both sides go through ToNumber
    (the right one is a number already) and a [NaN] operand gives
    [false]. *)
Definition lt_const (v : jsval) (k : Z) : bool :=
  match Number v with
  | NaN => false
  | Num z => z <? k
  end.

(** [v === w] *)
Definition strict_eq (v w : jsval) : bool :=
  match v, w with
  | JUndefined, JUndefined => true
  | JNull, JNull => true
  | JBool a, JBool b => Bool.eqb a b
  | JNum (Num a), JNum (Num b) => a =? b
  | JStr a, JStr b => (a =? b)%string
  | _, _ => false
  end.

(** [arr.includes(v)] for an array of string literals. *)
Definition includes (arr : list string) (v : jsval) : bool :=
  existsb (fun s => strict_eq (JStr s) v) arr.

(** [arr.join(", ")] *)
Definition join (arr : list string) : string := String.concat ", " arr.

End JS.

Import JS.

(* ===================================================================== *)
(** * Documents and the store *)
(* ===================================================================== *)

(** An ObjectId is a 96-bit number, written as 24 hexadecimal digits. *)
Definition ObjectId : Type := N.

Definition hex_digit (c : ascii) : option N :=
  let n := N_of_ascii c in
  if (48 <=? n)%N && (n <=? 57)%N then Some (n - 48)%N
  else if (97 <=? n)%N && (n <=? 102)%N then Some (n - 87)%N
  else if (65 <=? n)%N && (n <=? 70)%N then Some (n - 55)%N
  else None.

Fixpoint hex_value (s : string) (acc : N) : option N :=
  match s with
  | EmptyString => Some acc
  | String c r =>
      match hex_digit c with
      | Some d => hex_value r (16 * acc + d)%N
      | None => None
      end
  end.

(** Mongoose's cast of a query value to an ObjectId: a string of exactly 24
    hexadecimal digits denotes an id, anything else is a cast failure. *)
Definition castObjectId (v : jsval) : option ObjectId :=
  match v with
  | JStr s => if (String.length s =? 24)%nat then hex_value s 0%N else None
  | _ => None
  end.

(** The result of casting a value for a [String] path: the key is left out
    ([Undefined]), holds [null], or holds a string. *)
Inductive casted (A : Type) : Type :=
| Undefined
| Null
| Value (a : A).
Arguments Undefined {A}.
Arguments Null {A}.
Arguments Value {A} a.

(** Mongoose's cast to [String]: numbers and booleans are rendered. *)
Definition castString (v : jsval) : casted string :=
  match v with
  | JUndefined => Undefined
  | JNull => Null
  | JBool true => Value "true"
  | JBool false => Value "false"
  | JNum n => Value (NumberToString n)
  | JStr s => Value s
  end.

(** Mongoose's cast to [Number] of a value that is a number already: [NaN]
    is a cast failure. *)
Definition castNumber (n : number) : option Z :=
  match n with
  | NaN => None
  | Num z => Some z
  end.

Module User.
(** Modelled from the spec: the schema file [models/User.js] is not part
    of the sources; a user has a unique username and a password hash,
    both strings. *)
Record t : Type := mk {
  _id : ObjectId;
  username : string;
  password : string
}.

(** A user document without its password: [.select("-password")]. *)
Record projection : Type := mkProjection {
  p_id : ObjectId;
  p_username : string
}.
End User.

Module Car.
(** A stored car, after [carSchema] of [models/Car.js] with
    [timestamps: true].  A [String] path can hold [null] ([None]) once an
    update has written it. *)
Record t : Type := mk {
  _id : ObjectId;
  owner : option ObjectId;
  model : option string;
  year : Z;
  mpg : Z;
  notes : option string;
  fuel : option string;
  isElectric : bool;
  transmission : option string;
  createdAt : nat;
  updatedAt : nat
}.
End Car.

(** The object literals [payload] and [update] of the handlers: what is
    handed to [Car.create] and to [$set].  [owner] is [req.session.userId],
    or [None] in an [update], which has no such key. *)
Module Fields.
Record t : Type := mk {
  owner : option ObjectId;
  model : jsval;
  year : number;
  mpg : number;
  notes : jsval;
  fuel : jsval;
  isElectric : bool;
  transmission : jsval
}.
End Fields.

(** The database: the two collections and the source of fresh ObjectIds. *)
Record db : Type := mkDb {
  users : list User.t;
  cars : list Car.t;
  nextId : ObjectId
}.

(** The session object [req.session] of express-session. *)
Module Session.
Record t : Type := mk {
  userId : option ObjectId;
  flash : option string
}.
Definition empty : t := mk None None.
End Session.

Record world : Type := mkWorld {
  session : Session.t;
  database : db
}.

(* ===================================================================== *)
(** * Handlers as computations *)
(* ===================================================================== *)

Inductive error : Type :=
| TypeError (msg : string)
| CastError (path : string)
| ValidationError (paths : list string).

Inductive result (A : Type) : Type :=
| Ok (a : A)
| Throw (e : error).
Arguments Ok {A} a.
Arguments Throw {A} e.

(** A handler step reads and writes the session and the database and either
    returns or throws; what was written before a throw stays written. *)
Definition M (A : Type) : Type := world -> result A * world.

Definition ret {A} (a : A) : M A := fun w => (Ok a, w).

Definition bind {A B} (c : M A) (k : A -> M B) : M B :=
  fun w =>
    match c w with
    | (Ok a, w') => k a w'
    | (Throw e, w') => (Throw e, w')
    end.

Definition throw {A} (e : error) : M A := fun w => (Throw e, w).

(** [try { c } catch (err) { h }] *)
Definition try_catch {A} (c : M A) (h : error -> M A) : M A :=
  fun w =>
    match c w with
    | (Ok a, w') => (Ok a, w')
    | (Throw e, w') => h e w'
    end.

(** [await op] for a database operation. *)
Definition await {A} (op : db -> result A * db) : M A :=
  fun w =>
    let (r, d) := op (database w) in
    (r, mkWorld (session w) d).

(** Lifting a pure computation that may throw. *)
Definition eval {A} (r : result A) : M A := fun w => (r, w).

Definition get_userId : M (option ObjectId) :=
  fun w => (Ok (Session.userId (session w)), w).

Definition set_userId (u : ObjectId) : M unit :=
  fun w => (Ok tt, mkWorld (Session.mk (Some u) (Session.flash (session w))) (database w)).

Definition get_flash : M (option string) :=
  fun w => (Ok (Session.flash (session w)), w).

Definition set_flash (msg : string) : M unit :=
  fun w => (Ok tt, mkWorld (Session.mk (Session.userId (session w)) (Some msg)) (database w)).

Definition delete_flash : M unit :=
  fun w => (Ok tt, mkWorld (Session.mk (Session.userId (session w)) None) (database w)).

(** [req.session.destroy(cb)]: the session is removed from the store, the
    next request starts from an empty one. *)
Definition session_destroy : M unit :=
  fun w => (Ok tt, mkWorld Session.empty (database w)).

Declare Scope monad_scope.
Delimit Scope monad_scope with monad.
Notation "x <- c ;; k" := (bind c (fun x => k))
  (at level 61, c at next level, right associativity) : monad_scope.
Notation "c ;; k" := (bind c (fun _ => k))
  (at level 61, right associativity) : monad_scope.
Local Open Scope monad_scope.

(* ===================================================================== *)
(** * The Mongoose models *)
(* ===================================================================== *)

Definition oid_eqb (a b : option ObjectId) : bool :=
  match a, b with
  | Some x, Some y => (x =? y)%N
  | None, None => true
  | _, _ => false
  end.

(** [User.findOne({ username })]: the first user of that name. *)
Definition User_findOne (username : jsval) (d : db) : result (option User.t) * db :=
  match castString username with
  | Value name => (Ok (find (fun u => (User.username u =? name)%string) (users d)), d)
  | _ => (Ok None, d)
  end.

(** [User.findById(id)] *)
Definition User_findById (id : option ObjectId) (d : db) : result (option User.t) * db :=
  (Ok (find (fun u => oid_eqb (Some (User._id u)) id) (users d)), d).

(** [User.create({ username, password })]: a new document under a fresh id. *)
Definition User_create (username : jsval) (password : string) (d : db)
  : result User.t * db :=
  match castString username with
  | Value name =>
      let user := User.mk (nextId d) name password in
      (Ok user, mkDb (users d ++ [user]) (cars d) (N.succ (nextId d)))
  | _ => (Throw (ValidationError ["username"]), d)
  end.

(** [.select("-password")] *)
Definition select_minus_password (u : User.t) : User.projection :=
  User.mkProjection (User._id u) (User.username u).

(** The validators of [carSchema]. *)
Definition enum_fuel : list string := ["gasoline"; "diesel"; "electric"; "hybrid"].
Definition enum_transmission : list string := ["auto"; "manual"].

(** [required: true] on a [String] path: present and not empty. *)
Definition required_ok (c : casted string) : bool :=
  match c with
  | Value s => negb (s =? "")%string
  | _ => false
  end.

(** [min: k] on a [Number] path, for a value that was cast. *)
Definition min_fails (k : Z) (n : number) : bool :=
  match castNumber n with
  | Some z => z <? k
  | None => false
  end.

(** The [Number] paths of a new document whose value cannot be cast. *)
Definition cast_failures (p : Fields.t) : list string :=
  match castNumber (Fields.year p) with Some _ => [] | None => ["year"] end ++
  match castNumber (Fields.mpg p) with Some _ => [] | None => ["mpg"] end.

(** [enum: values]; a value that is missing or [null] is not checked. *)
Definition enum_ok (values : list string) (c : casted string) : bool :=
  match c with
  | Value s => existsb (String.eqb s) values
  | _ => true
  end.

(** The paths of a new document that fail casting or validation: the
    cast failures first, then the failures of the validators in the order
    of the schema. *)
Definition Car_validate (p : Fields.t) : list string :=
  cast_failures p ++
  (if required_ok (castString (Fields.model p)) then [] else ["model"]) ++
  (if min_fails 1885 (Fields.year p) then ["year"] else []) ++
  (if min_fails 0 (Fields.mpg p) then ["mpg"] else []) ++
  (if enum_ok enum_fuel (castString (Fields.fuel p)) then [] else ["fuel"]) ++
  (if enum_ok enum_transmission (castString (Fields.transmission p))
   then [] else ["transmission"]).

(** What a [String] path of a new document holds, [default] filling in for
    a missing key. *)
Definition with_default (c : casted string) (default : string) : option string :=
  match c with
  | Undefined => Some default
  | Null => None
  | Value s => Some s
  end.

Definition stored (c : casted string) : option string :=
  match c with
  | Value s => Some s
  | _ => None
  end.

(** [Car.create(payload)]: cast, apply defaults, validate, stamp and insert;
    a document that fails validation is not inserted and the call throws. *)
Definition Car_create (p : Fields.t) (now : nat) (d : db) : result Car.t * db :=
  match Car_validate p, castNumber (Fields.year p), castNumber (Fields.mpg p) with
  | [], Some y, Some g =>
      let doc :=
        Car.mk (nextId d) (Fields.owner p)
               (stored (castString (Fields.model p))) y g
               (with_default (castString (Fields.notes p)) "")
               (with_default (castString (Fields.fuel p)) "gasoline")
               (Fields.isElectric p)
               (with_default (castString (Fields.transmission p)) "auto")
               now now in
      (Ok doc, mkDb (users d) (cars d ++ [doc]) (N.succ (nextId d)))
  | paths, _, _ => (Throw (ValidationError paths), d)
  end.

(** The filter [{ _id: id, owner: owner }]. *)
Definition matches (id : ObjectId) (owner : option ObjectId) (c : Car.t) : bool :=
  (Car._id c =? id)%N && oid_eqb (Car.owner c) owner.

(** [$set] on a [String] path: a key whose value is [undefined] is dropped
    from the update, [null] is written as such. *)
Definition set_string (c : casted string) (old : option string) : option string :=
  match c with
  | Undefined => old
  | Null => None
  | Value s => Some s
  end.

(** [{ $set: update }] applied to one document; [updatedAt] is stamped, the
    id, the owner and [createdAt] are not part of any update. *)
Definition apply_set (u : Fields.t) (y g : Z) (now : nat) (c : Car.t) : Car.t :=
  Car.mk (Car._id c) (Car.owner c)
         (set_string (castString (Fields.model u)) (Car.model c)) y g
         (set_string (castString (Fields.notes u)) (Car.notes c))
         (set_string (castString (Fields.fuel u)) (Car.fuel c))
         (Fields.isElectric u)
         (set_string (castString (Fields.transmission u)) (Car.transmission c))
         (Car.createdAt c) now.

Fixpoint update_first {A} (p : A -> bool) (f : A -> A) (l : list A) : list A :=
  match l with
  | [] => []
  | x :: r => if p x then f x :: r else x :: update_first p f r
  end.

Fixpoint remove_first {A} (p : A -> bool) (l : list A) : list A :=
  match l with
  | [] => []
  | x :: r => if p x then r else x :: remove_first p r
  end.

(** [Car.updateOne({ _id: id, owner }, { $set: update })]: filter and update
    are cast against the schema (a malformed id or a [NaN] number throws;
    of two numbers that fail, the error names the later path), then the
    first matching document, if any, is updated.  Validators do not run on
    updates. *)
Definition Car_updateOne (id : jsval) (owner : option ObjectId) (u : Fields.t)
    (now : nat) (d : db) : result unit * db :=
  match castObjectId id with
  | None => (Throw (CastError "_id"), d)
  | Some i =>
      match castNumber (Fields.year u), castNumber (Fields.mpg u) with
      | Some y, Some g =>
          (Ok tt, mkDb (users d)
                       (update_first (matches i owner) (apply_set u y g now) (cars d))
                       (nextId d))
      | _, None => (Throw (CastError "mpg"), d)
      | None, _ => (Throw (CastError "year"), d)
      end
  end.

(** [Car.deleteOne({ _id: id, owner })] *)
Definition Car_deleteOne (id : jsval) (owner : option ObjectId) (d : db)
  : result unit * db :=
  match castObjectId id with
  | None => (Throw (CastError "_id"), d)
  | Some i =>
      (Ok tt, mkDb (users d) (remove_first (matches i owner) (cars d)) (nextId d))
  end.

(** [Car.find({ owner }).lean()]: the matching documents in the order of
    the collection, which is the order of insertion. *)
Definition Car_find (owner : option ObjectId) (d : db) : result (list Car.t) * db :=
  (Ok (filter (fun c => oid_eqb (Car.owner c) owner) (cars d)), d).

(** Insertion of a document in a list ordered by [createdAt], latest
    first; among equal stamps the inserted one goes first. *)
Fixpoint insert_desc (c : Car.t) (l : list Car.t) : list Car.t :=
  match l with
  | [] => [c]
  | x :: r =>
      if (Car.createdAt x <=? Car.createdAt c)%nat then c :: l
      else x :: insert_desc c r
  end.

(** [.sort({ createdAt: -1 })] *)
Definition sort_createdAt_desc (l : list Car.t) : list Car.t :=
  fold_right insert_desc [] l.

(** [Car.find({ owner }).sort({ createdAt: -1 }).lean()] *)
Definition Car_find_sorted (owner : option ObjectId) (d : db)
  : result (list Car.t) * db :=
  (Ok (sort_createdAt_desc (filter (fun c => oid_eqb (Car.owner c) owner) (cars d))), d).

(* ===================================================================== *)
(** * Requests and responses *)
(* ===================================================================== *)

(** [req.body], as parsed by [express.json()] or [express.urlencoded()]:
    the fields the handlers read. *)
Module Body.
Record t : Type := mk {
  username : jsval;
  password : jsval;
  id : jsval;
  model : jsval;
  year : jsval;
  mpg : jsval;
  notes : jsval;
  fuel : jsval;
  isElectric : jsval;
  transmission : jsval
}.
(** [{}] *)
Definition empty : t :=
  mk JUndefined JUndefined JUndefined JUndefined JUndefined
     JUndefined JUndefined JUndefined JUndefined JUndefined.
(** [{ ...b, id: v }] *)
Definition with_id (b : t) (v : jsval) : t :=
  mk (username b) (password b) v (model b) (year b) (mpg b)
     (notes b) (fuel b) (isElectric b) (transmission b).
(** [{ ...b, username: u, password: p }] *)
Definition with_credentials (b : t) (u p : jsval) : t :=
  mk u p (id b) (model b) (year b) (mpg b)
     (notes b) (fuel b) (isElectric b) (transmission b).
End Body.

(** A request: its body, the [:id] segment of its path, and the time at
    which it is served (what Mongoose stamps documents with). *)
Record request : Type := mkRequest {
  body : Body.t;
  params_id : string;
  now : nat
}.

Inductive json : Type :=
| ErrorBody (error : string)                               (* { error } *)
| CarsBody (cars : list Car.t)                             (* cars *)
| MeBody (user : option User.projection) (cars : list Car.t). (* { user, cars } *)

Inductive response : Type :=
| Redirect (location : string)
| RenderLogin (title : string) (flash : option string)
| RenderDashboard (title : string) (flash : option string)
                  (user : User.t) (cars : list Car.t)
| Json (status : nat) (payload : json)
| Send (status : nat) (text : string)
| Unhandled (e : error).  (* the handler's promise was rejected *)

Inductive route : Type :=
| GET_root
| POST_login
| POST_logout
| GET_dashboard
| POST_cars
| POST_cars_id_update
| POST_cars_id_delete
| GET_api_me
| GET_data
| POST_add
| POST_modify
| POST_delete
| Other.

(** [v.trim()]: a method of strings only. *)
Definition call_trim (v : jsval) : result string :=
  match v with
  | JStr s => Ok (trim s)
  | JUndefined | JNull => Throw (TypeError "Cannot read properties of undefined")
  | _ => Throw (TypeError "trim is not a function")
  end.

(** [v?.trim()] *)
Definition optional_trim (v : jsval) : result jsval :=
  match v with
  | JUndefined | JNull => Ok JUndefined
  | JStr s => Ok (JStr (trim s))
  | _ => Throw (TypeError "trim is not a function")
  end.

(** [v === "on" || v === true] *)
Definition on_or_true (v : jsval) : bool :=
  strict_eq v (JStr "on") || strict_eq v (JBool true).

(* ===================================================================== *)
(** * The server *)
(* ===================================================================== *)

Section Server.

(** bcrypt is an external collaborator: [bcrypt.hash(data, 10)] and
    [bcrypt.compare(data, encrypted)] on strings. *)
Variable bcrypt_hash : string -> string.
Variable bcrypt_compare : string -> string -> bool.

(** Both calls throw when [data] is not a string. *)
Definition bcrypt_hash_js (data : jsval) : result string :=
  match data with
  | JStr s => Ok (bcrypt_hash s)
  | _ => Throw (TypeError "data must be a string or Buffer")
  end.

Definition bcrypt_compare_js (data : jsval) (encrypted : string) : result bool :=
  match data with
  | JStr s => Ok (bcrypt_compare s encrypted)
  | _ => Throw (TypeError "data must be a string or Buffer")
  end.

(** ** Middleware *)

Definition requireAuth (next : M response) : M response :=
  uid <- get_userId ;;
  match uid with
  | None => ret (Redirect "/")
  | Some _ => next
  end.

(** [res.locals.flash = req.session.flash; delete req.session.flash] *)
Definition flash_middleware : M (option string) :=
  flash <- get_flash ;;
  delete_flash ;;
  ret flash.

Definition ensureLoggedInOrDemo (next : M response) : M response :=
  uid <- get_userId ;;
  match uid with
  | None =>
      found <- await (User_findOne (JStr "demo")) ;;
      demo <- match found with
              | None =>
                  hash <- eval (bcrypt_hash_js (JStr "demo")) ;;
                  await (User_create (JStr "demo") hash)
              | Some demo => ret demo
              end ;;
      set_userId (User._id demo) ;;
      next
  | Some _ => next
  end.

(** ** HTML routes *)

Definition get_root (locals_flash : option string) : M response :=
  uid <- get_userId ;;
  match uid with
  | Some _ => ret (Redirect "/dashboard")
  | None => ret (RenderLogin "Login • Car Tracker" locals_flash)
  end.

Definition post_login (req : request) : M response :=
  let username := Body.username (body req) in
  let password := Body.password (body req) in
  if js_not username || js_not password then
    set_flash "Username and password required." ;;
    ret (Redirect "/")
  else
    existing <- await (User_findOne username) ;;
    match existing with
    | None =>
        hash <- eval (bcrypt_hash_js password) ;;
        user <- await (User_create username hash) ;;
        set_userId (User._id user) ;;
        set_flash "New account created and logged in." ;;
        ret (Redirect "/dashboard")
    | Some existing =>
        ok <- eval (bcrypt_compare_js password (User.password existing)) ;;
        if negb ok then
          set_flash "Incorrect password." ;;
          ret (Redirect "/")
        else
          set_userId (User._id existing) ;;
          ret (Redirect "/dashboard")
    end.

Definition post_logout : M response :=
  session_destroy ;;
  ret (Redirect "/").

Definition get_dashboard (locals_flash : option string) : M response :=
  uid <- get_userId ;;
  user <- await (User_findById uid) ;;
  match user with
  | None => throw (TypeError "Cannot read properties of null (reading '_id')")
  | Some user =>
      cars <- await (Car_find_sorted (Some (User._id user))) ;;
      ret (RenderDashboard "Dashboard • Car Tracker" locals_flash user cars)
  end.

(** [v === "on" || v === true || v === "true"] *)
Definition form_checkbox (v : jsval) : bool :=
  strict_eq v (JStr "on") || strict_eq v (JBool true) || strict_eq v (JStr "true").

Definition post_cars (req : request) : M response :=
  let b := body req in
  uid <- get_userId ;;
  let payload :=
    Fields.mk uid
              (Body.model b)
              (Number (Body.year b))
              (Number (Body.mpg b))
              (js_or (Body.notes b) (JStr ""))
              (js_or (Body.fuel b) (JStr "gasoline"))
              (form_checkbox (Body.isElectric b))
              (js_or (Body.transmission b) (JStr "auto")) in
  await (Car_create payload (now req)) ;;
  ret (Redirect "/dashboard").

Definition post_cars_id_update (req : request) : M response :=
  let b := body req in
  let id := params_id req in
  let update :=
    Fields.mk None
              (Body.model b)
              (Number (Body.year b))
              (Number (Body.mpg b))
              (js_or (Body.notes b) (JStr ""))
              (js_or (Body.fuel b) (JStr "gasoline"))
              (form_checkbox (Body.isElectric b))
              (js_or (Body.transmission b) (JStr "auto")) in
  uid <- get_userId ;;
  await (Car_updateOne (JStr id) uid update (now req)) ;;
  ret (Redirect "/dashboard").

Definition post_cars_id_delete (req : request) : M response :=
  let id := params_id req in
  uid <- get_userId ;;
  await (Car_deleteOne (JStr id) uid) ;;
  ret (Redirect "/dashboard").

(** ** JSON routes *)

Definition get_api_me : M response :=
  uid <- get_userId ;;
  user <- await (User_findById uid) ;;
  cars <- await (Car_find uid) ;;
  ret (Json 200 (MeBody (option_map select_minus_password user) cars)).

Definition get_data : M response :=
  uid <- get_userId ;;
  cars <- await (Car_find uid) ;;
  ret (Json 200 (CarsBody cars)).

Definition allowedFuels : list string := ["gasoline"; "diesel"; "electric"; "hybrid"].
Definition allowedTransmissions : list string := ["auto"; "manual"].

Definition post_add (req : request) : M response :=
  let b := body req in
  if js_not (Body.model b) || js_not (Body.year b) || js_not (Body.mpg b) then
    ret (Json 400 (ErrorBody "Model, year, and MPG are required fields."))
  else if lt_const (Body.year b) 1885 then
    ret (Json 400 (ErrorBody "Year must be 1885 or later."))
  else if negb (includes allowedFuels (Body.fuel b)) then
    ret (Json 400 (ErrorBody ("Fuel must be one of: " ++ join allowedFuels ++ ".")))
  else if negb (includes allowedTransmissions (Body.transmission b)) then
    ret (Json 400 (ErrorBody
           ("Transmission must be one of: " ++ join allowedTransmissions ++ ".")))
  else
    uid <- get_userId ;;
    model <- eval (call_trim (Body.model b)) ;;
    notes <- eval (optional_trim (Body.notes b)) ;;
    fuel <- eval (call_trim (Body.fuel b)) ;;
    transmission <- eval (call_trim (Body.transmission b)) ;;
    let payload :=
      Fields.mk uid
                (JStr model)
                (Number (Body.year b))
                (Number (Body.mpg b))
                (js_or notes (JStr ""))
                (JStr fuel)
                (on_or_true (Body.isElectric b))
                (JStr transmission) in
    try_catch
      (await (Car_create payload (now req)) ;;
       ret (Redirect "/dashboard"))
      (fun err => ret (Json 500 (ErrorBody "Failed to add car."))).

Definition post_modify (req : request) : M response :=
  let b := body req in
  if js_not (Body.id b) then ret (Json 400 (ErrorBody "Missing id"))
  else
    let update :=
      Fields.mk None
                (Body.model b)
                (Number (Body.year b))
                (Number (Body.mpg b))
                (Body.notes b)
                (Body.fuel b)
                (on_or_true (Body.isElectric b))
                (Body.transmission b) in
    uid <- get_userId ;;
    await (Car_updateOne (Body.id b) uid update (now req)) ;;
    cars <- await (Car_find uid) ;;
    ret (Json 200 (CarsBody cars)).

Definition post_delete (req : request) : M response :=
  let id := Body.id (body req) in
  if js_not id then ret (Json 400 (ErrorBody "Missing id"))
  else
    uid <- get_userId ;;
    await (Car_deleteOne id uid) ;;
    cars <- await (Car_find uid) ;;
    ret (Json 200 (CarsBody cars)).

(** ** The application *)

(** The session middleware hands the request to the flash middleware and
    then to the first matching route; the last handler answers 404. *)
Definition app (r : route) (req : request) : M response :=
  locals_flash <- flash_middleware ;;
  match r with
  | GET_root => get_root locals_flash
  | POST_login => post_login req
  | POST_logout => post_logout
  | GET_dashboard => requireAuth (get_dashboard locals_flash)
  | POST_cars => requireAuth (post_cars req)
  | POST_cars_id_update => requireAuth (post_cars_id_update req)
  | POST_cars_id_delete => requireAuth (post_cars_id_delete req)
  | GET_api_me => requireAuth get_api_me
  | GET_data => ensureLoggedInOrDemo get_data
  | POST_add => ensureLoggedInOrDemo (post_add req)
  | POST_modify => ensureLoggedInOrDemo (post_modify req)
  | POST_delete => ensureLoggedInOrDemo (post_delete req)
  | Other => ret (Send 404 "Not found")
  end.

(** Serving one request: what the client sees and the world afterwards.
    A handler that throws sends nothing itself. *)
Definition serve (r : route) (req : request) (w : world) : response * world :=
  match app r req w with
  | (Ok res, w') => (res, w')
  | (Throw e, w') => (Unhandled e, w')
  end.

(** Serving a sequence of requests of one client, in order. *)
Fixpoint serve_all (rs : list (route * request)) (w : world)
  : list response * world :=
  match rs with
  | [] => ([], w)
  | (r, req) :: rest =>
      let (res, w1) := serve r req w in
      let (out, w2) := serve_all rest w1 in
      (res :: out, w2)
  end.

End Server.

(* ===================================================================== *)
(** * Sample data *)
(* ===================================================================== *)

(** A stand-in for bcrypt and a small populated store, used to run the
    handlers on concrete requests. *)
Module Sample.

Definition hash (data : string) : string := "$2b$10$" ++ data.
Definition compare (data encrypted : string) : bool := (encrypted =? hash data)%string.

Definition alice : User.t := User.mk 1%N "alice" (hash "wonderland").
Definition bob : User.t := User.mk 2%N "bob" (hash "builder").

Definition civic : Car.t :=
  Car.mk 3%N (Some 1%N) (Some "Civic") 2020 35 (Some "") (Some "gasoline")
         false (Some "auto") 10 10.
Definition leaf : Car.t :=
  Car.mk 4%N (Some 2%N) (Some "Leaf") 2019 110 (Some "quiet") (Some "electric")
         true (Some "auto") 20 20.
Definition beetle : Car.t :=
  Car.mk 5%N (Some 1%N) (Some "Beetle") 1967 25 (Some "") (Some "gasoline")
         false (Some "manual") 30 30.

Definition store : db := mkDb [alice; bob] [civic; leaf; beetle] 6%N.
Definition empty_store : db := mkDb [] [] 1%N.

(** Alice and Bob, logged in; and a client without a session. *)
Definition as_alice : world := mkWorld (Session.mk (Some 1%N) None) store.
Definition as_bob : world := mkWorld (Session.mk (Some 2%N) None) store.
Definition anonymous : world := mkWorld Session.empty store.

(** The 24-digit forms of the ids 3 (civic), 4 (leaf) and 9 (no document). *)
Definition id_civic : string := "000000000000000000000003".
Definition id_leaf : string := "000000000000000000000004".
Definition id_nine : string := "000000000000000000000009".

(** A body with the car fields of the specification's scenario. *)
Definition car_body (model : string) (year mpg : Z) (fuel transmission : string)
  : Body.t :=
  Body.mk JUndefined JUndefined JUndefined
          (JStr model) (JNum (Num year)) (JNum (Num mpg)) JUndefined
          (JStr fuel) JUndefined (JStr transmission).

Definition login_body (username password : string) : Body.t :=
  Body.mk (JStr username) (JStr password) JUndefined JUndefined JUndefined
          JUndefined JUndefined JUndefined JUndefined JUndefined.

Definition at_time (t : nat) (b : Body.t) : request := mkRequest b "" t.

(** U+00A0, the no-break space, and U+3000, the ideographic space. *)
Definition nbsp : string := String "194"%char (String "160"%char EmptyString).
Definition wide_space : string :=
  String "227"%char (String "128"%char (String "128"%char EmptyString)).

End Sample.

(* ===================================================================== *)
(** * Vocabulary of the properties *)
(* ===================================================================== *)

Section Vocabulary.

Variable bcrypt_hash : string -> string.
Variable bcrypt_compare : string -> string -> bool.

(** Two requests on the same route are answered alike, world included, and
    the first leaves the database as it was. *)
Definition indistinguishable (r : route) (req1 req2 : request) (w : world) : Prop :=
  serve bcrypt_hash bcrypt_compare r req1 w = serve bcrypt_hash bcrypt_compare r req2 w /\
  database (snd (serve bcrypt_hash bcrypt_compare r req1 w)) = database w.

(** The id and the owner of every stored car, in the order of the
    collection. *)
Definition ownership (w : world) : list (ObjectId * option ObjectId) :=
  map (fun c => (Car._id c, Car.owner c)) (cars (database w)).

(** No account carries that name. *)
Definition never_seen (name : string) (d : db) : Prop :=
  forall u, In u (users d) -> User.username u <> name.

(** A login request: any request whose body carries these credentials. *)
Definition login_request (b : Body.t) (p : string) (t : nat) (name pass : string)
  : request :=
  mkRequest (Body.with_credentials b (JStr name) (JStr pass)) p t.

(** The flash middleware has run: the message is consumed. *)
Definition consume_flash (w : world) : world :=
  mkWorld (Session.mk (Session.userId (session w)) None) (database w).

(** The world a handler behind [ensureLoggedInOrDemo] starts from: a
    session without a user is given the demo account, which is created
    when it does not exist yet. *)
Definition attach_demo (w : world) : world :=
  match Session.userId (session w) with
  | Some _ => w
  | None =>
      let d := database w in
      match find (fun u => (User.username u =? "demo")%string) (users d) with
      | Some demo =>
          mkWorld (Session.mk (Some (User._id demo)) (Session.flash (session w))) d
      | None =>
          let demo := User.mk (nextId d) "demo" (bcrypt_hash "demo") in
          mkWorld (Session.mk (Some (nextId d)) (Session.flash (session w)))
                  (mkDb (users d ++ [demo]) (cars d) (N.succ (nextId d)))
      end
  end.

(** What POST /add stores as notes: the trimmed text, or the empty string
    when there is none. *)
Definition notes_text (v : jsval) : string :=
  match v with
  | JStr n => trim n
  | _ => ""
  end.

(** A body POST /add takes: a model that is a string with something other
    than white space in it, a year [y] and an mpg [g] given as numbers, a
    fuel and a transmission out of the enumerations, and notes that are
    absent, [null] or a string. *)
Definition car_fields (b : Body.t) (m : string) (y g : Z) (f tr : string) : Prop :=
  Body.model b = JStr m /\ trim m <> "" /\
  Body.year b = JNum (Num y) /\
  Body.mpg b = JNum (Num g) /\
  Body.fuel b = JStr f /\ In f allowedFuels /\
  Body.transmission b = JStr tr /\ In tr allowedTransmissions /\
  (Body.notes b = JUndefined \/ Body.notes b = JNull \/ exists n, Body.notes b = JStr n).

(** The document POST /add inserts for such a body. *)
Definition added_car (b : Body.t) (m : string) (y g : Z) (f tr : string)
    (t : nat) (w : world) : Car.t :=
  Car.mk (nextId (database w)) (Session.userId (session w))
         (Some (trim m)) y g (Some (notes_text (Body.notes b))) (Some f)
         (on_or_true (Body.isElectric b)) (Some tr) t t.

(** The world with one more car. *)
Definition with_car (w : world) (c : Car.t) : world :=
  mkWorld (session w)
          (mkDb (users (database w)) (cars (database w) ++ [c])
                (N.succ (nextId (database w)))).

(** [!b.model || !b.year || !b.mpg] is false: all three are present. *)
Definition required_present (b : Body.t) : bool :=
  truthy (Body.model b) && truthy (Body.year b) && truthy (Body.mpg b).

Definition msg_required : string := "Model, year, and MPG are required fields.".
Definition msg_year : string := "Year must be 1885 or later.".

(** The cars of the session's user, in the order of the collection. *)
Definition cars_of (w : world) : list Car.t :=
  filter (fun c => oid_eqb (Car.owner c) (Session.userId (session w)))
         (cars (database w)).

(** The routes behind [requireAuth]. *)
Definition strict (r : route) : bool :=
  match r with
  | GET_dashboard | POST_cars | POST_cars_id_update | POST_cars_id_delete
  | GET_api_me => true
  | _ => false
  end.

(** The routes that can put a user into the session: the login, and the
    routes behind [ensureLoggedInOrDemo]. *)
Definition identifies (r : route) : bool :=
  match r with
  | POST_login | GET_data | POST_add | POST_modify | POST_delete => true
  | _ => false
  end.

(** [a] may stand before [b] in a list that has the latest first. *)
Definition newer_first (a b : Car.t) : Prop :=
  (Car.createdAt b <= Car.createdAt a)%nat.

(** The ids of the cars are pairwise distinct and older than the next
    fresh id: what the [_id] index of the collection guarantees. *)
Definition ids_fresh (d : db) : Prop :=
  NoDup (map Car._id (cars d)) /\
  Forall (fun c => (Car._id c < nextId d)%N) (cars d).

(** A computation keeps a property of the database. *)
Definition keeps {A} (P : db -> Prop) (c : M A) : Prop :=
  forall w, P (database w) -> P (database (snd (c w))).

(** A computation keeps a property of the world, session included. *)
Definition preserves {A} (P : world -> Prop) (c : M A) : Prop :=
  forall w, P w -> P (snd (c w)).

(** The validators of [carSchema] hold of a stored car. *)
Definition schema_valid (c : Car.t) : Prop :=
  (exists m, Car.model c = Some m /\ m <> "") /\
  1885 <= Car.year c /\
  0 <= Car.mpg c /\
  (forall f, Car.fuel c = Some f -> In f enum_fuel) /\
  (forall tr, Car.transmission c = Some tr -> In tr enum_transmission).

(** The cars that are not owned by [a], in the order of the collection. *)
Definition foreign_cars (a : ObjectId) (d : db) : list Car.t :=
  filter (fun c => negb (oid_eqb (Car.owner c) (Some a))) (cars d).

(** The routes whose handlers call [Car.create], [Car.updateOne] or
    [Car.deleteOne]. *)
Definition writes_cars (r : route) : bool :=
  match r with
  | POST_cars | POST_cars_id_update | POST_cars_id_delete
  | POST_add | POST_modify | POST_delete => true
  | _ => false
  end.

(** The list without the documents of id [i]. *)
Definition without_id (i : ObjectId) (l : list Car.t) : list Car.t :=
  filter (fun c => negb (Car._id c =? i)%N) l.

(** The list with the documents of id [i] replaced by [c']. *)
Definition replaced (i : ObjectId) (c' : Car.t) (l : list Car.t) : list Car.t :=
  map (fun c => if (Car._id c =? i)%N then c' else c) l.

(** The world with another list of cars. *)
Definition with_cars (w : world) (l : list Car.t) : world :=
  mkWorld (session w) (mkDb (users (database w)) l (nextId (database w))).

(** What a creating route leaves behind: either the redirect to the
    dashboard and one more car, which is valid, owned by the session's user
    and stamped with the time of the request, or another answer and the
    cars as they were. *)
Definition created_or_nothing (req : request) (w : world)
    (out : response * world) : Prop :=
  (fst out = Redirect "/dashboard" /\
   exists c,
     cars (database (snd out)) = (cars (database w) ++ [c])%list /\
     schema_valid c /\
     Car.owner c = Session.userId (session (snd out)) /\
     Car.createdAt c = now req) \/
  (fst out <> Redirect "/dashboard" /\
   cars (database (snd out)) = cars (database w)).

(** The names of the accounts, in the order of the collection. *)
Definition usernames (d : db) : list string := map User.username (users d).

End Vocabulary.

(* ===================================================================== *)
(** * Facts about the store operations *)
(* ===================================================================== *)

Lemma update_first_none {A} (p : A -> bool) (f : A -> A) (l : list A) :
  (forall x, In x l -> p x = false) -> update_first p f l = l.
Proof.
  induction l as [|x r IH]; intros H; simpl; [reflexivity|].
  rewrite (H x (or_introl eq_refl)).
  f_equal. apply IH. intros y Hy. apply H. right. exact Hy.
Qed.

Lemma remove_first_none {A} (p : A -> bool) (l : list A) :
  (forall x, In x l -> p x = false) -> remove_first p l = l.
Proof.
  induction l as [|x r IH]; intros H; simpl; [reflexivity|].
  rewrite (H x (or_introl eq_refl)).
  f_equal. apply IH. intros y Hy. apply H. right. exact Hy.
Qed.

Lemma update_first_map {A B} (g : A -> B) (p : A -> bool) (f : A -> A) (l : list A) :
  (forall x, g (f x) = g x) -> map g (update_first p f l) = map g l.
Proof.
  intros Hg. induction l as [|x r IH]; simpl; [reflexivity|].
  destruct (p x); simpl; [rewrite Hg | rewrite IH]; reflexivity.
Qed.

Lemma oid_eqb_eq (a b : option ObjectId) : oid_eqb a b = true <-> a = b.
Proof.
  destruct a as [x|], b as [y|]; simpl; split; intros H;
    try discriminate; try reflexivity.
  - apply N.eqb_eq in H. congruence.
  - inversion H. apply N.eqb_refl.
Qed.

Lemma matches_spec id owner c :
  matches id owner c = true <-> Car._id c = id /\ Car.owner c = owner.
Proof.
  unfold matches. rewrite andb_true_iff, N.eqb_eq, oid_eqb_eq. reflexivity.
Qed.

(** An id that no document carries matches nothing. *)
Lemma matches_absent_id (l : list Car.t) j owner :
  ~ In j (map Car._id l) -> forall x, In x l -> matches j owner x = false.
Proof.
  intros Hj x Hx. destruct (matches j owner x) eqn:E; [|reflexivity].
  apply matches_spec in E. destruct E as [E _].
  exfalso. apply Hj. rewrite <- E. apply in_map. exact Hx.
Qed.

Lemma NoDup_map_inj {A B} (g : A -> B) (l : list A) x y :
  NoDup (map g l) -> In x l -> In y l -> g x = g y -> x = y.
Proof.
  induction l as [|a r IH]; simpl; intros Hnd Hx Hy Hg; [contradiction|].
  inversion Hnd as [|? ? Hna Hr]; subst.
  destruct Hx as [Hx|Hx], Hy as [Hy|Hy]; subst.
  - reflexivity.
  - exfalso. apply Hna. rewrite Hg. apply in_map. exact Hy.
  - exfalso. apply Hna. rewrite <- Hg. apply in_map. exact Hx.
  - apply IH; assumption.
Qed.

(** Ids being unique, the id of somebody else's document matches nothing
    under one's own ownership filter. *)
Lemma matches_foreign_id (l : list Car.t) c a :
  NoDup (map Car._id l) -> In c l -> Car.owner c <> Some a ->
  forall x, In x l -> matches (Car._id c) (Some a) x = false.
Proof.
  intros Hnd Hc Hown x Hx.
  destruct (matches (Car._id c) (Some a) x) eqn:E; [|reflexivity].
  apply matches_spec in E. destruct E as [Eid Eown].
  assert (x = c) by (eapply NoDup_map_inj; eauto).
  subst x. contradiction.
Qed.

Lemma castObjectId_truthy v i : castObjectId v = Some i -> js_not v = false.
Proof.
  destruct v as [| |b|n|s]; simpl; try discriminate.
  destruct s; simpl; [discriminate | reflexivity].
Qed.

(** With no document matching, an update or a delete changes nothing. *)
Lemma Car_updateOne_no_match id i owner u t d :
  castObjectId id = Some i ->
  (forall x, In x (cars d) -> matches i owner x = false) ->
  Car_updateOne id owner u t d = (Ok tt, d) \/
  exists path, Car_updateOne id owner u t d = (Throw (CastError path), d).
Proof.
  intros Hid Hno. unfold Car_updateOne. rewrite Hid.
  destruct (castNumber (Fields.year u)), (castNumber (Fields.mpg u));
    try (right; eexists; reflexivity).
  left. rewrite update_first_none by exact Hno. destruct d; reflexivity.
Qed.

Lemma Car_deleteOne_no_match id i owner d :
  castObjectId id = Some i ->
  (forall x, In x (cars d) -> matches i owner x = false) ->
  Car_deleteOne id owner d = (Ok tt, d).
Proof.
  intros Hid Hno. unfold Car_deleteOne. rewrite Hid.
  rewrite remove_first_none by exact Hno. destruct d; reflexivity.
Qed.

(** The outcome of an update that matches nothing does not depend on the
    id it names. *)
Lemma Car_updateOne_no_match_same id1 i1 id2 i2 owner u t d :
  castObjectId id1 = Some i1 -> castObjectId id2 = Some i2 ->
  (forall x, In x (cars d) -> matches i1 owner x = false) ->
  (forall x, In x (cars d) -> matches i2 owner x = false) ->
  Car_updateOne id1 owner u t d = Car_updateOne id2 owner u t d /\
  snd (Car_updateOne id1 owner u t d) = d.
Proof.
  intros H1 H2 N1 N2. unfold Car_updateOne. rewrite H1, H2.
  destruct (castNumber (Fields.year u)), (castNumber (Fields.mpg u));
    simpl; try (split; reflexivity).
  rewrite !update_first_none by assumption. split; [reflexivity|].
  destruct d; reflexivity.
Qed.

(* ===================================================================== *)
(** * Properties of the handlers *)
(* ===================================================================== *)

#[local] Arguments castObjectId : simpl never.
#[local] Arguments Car_updateOne : simpl never.
#[local] Arguments Car_deleteOne : simpl never.
#[local] Arguments Car_create : simpl never.

#[local] Arguments js_not : simpl never.

(** Unfolding the plumbing of a handler run. *)
Create HintDb run.
#[local] Hint Unfold serve app requireAuth ensureLoggedInOrDemo flash_middleware
  get_root post_login post_logout get_dashboard post_cars post_cars_id_update
  post_cars_id_delete get_api_me get_data post_add post_modify post_delete
  bind ret throw eval await try_catch
  get_userId set_userId get_flash set_flash delete_flash session_destroy : run.

Ltac run := repeat autounfold with run; cbn.

Section Isolation.

Variable bcrypt_hash : string -> string.
Variable bcrypt_compare : string -> string -> bool.

(** C1. For every user [a] and every car [c] owned by another user [b], an
    update (POST /modify, POST /cars/:id/update) or a delete (POST /delete,
    POST /cars/:id/delete) issued by [a] under the id of [c] leaves the
    database unchanged and is answered exactly like the same request under
    a well-formed id that no document carries. *)
Theorem foreign_id_acts_like_missing_id :
  forall (w : world) (a b : ObjectId) (c : Car.t) (idB idNone : string)
         (j : ObjectId) (bd : Body.t) (p : string) (t : nat),
    NoDup (map Car._id (cars (database w))) ->
    Session.userId (session w) = Some a ->
    In c (cars (database w)) ->
    Car.owner c = Some b ->
    b <> a ->
    castObjectId (JStr idB) = Some (Car._id c) ->
    castObjectId (JStr idNone) = Some j ->
    ~ In j (map Car._id (cars (database w))) ->
    indistinguishable bcrypt_hash bcrypt_compare POST_modify
      (mkRequest (Body.with_id bd (JStr idB)) p t)
      (mkRequest (Body.with_id bd (JStr idNone)) p t) w /\
    indistinguishable bcrypt_hash bcrypt_compare POST_delete
      (mkRequest (Body.with_id bd (JStr idB)) p t)
      (mkRequest (Body.with_id bd (JStr idNone)) p t) w /\
    indistinguishable bcrypt_hash bcrypt_compare POST_cars_id_update
      (mkRequest bd idB t) (mkRequest bd idNone t) w /\
    indistinguishable bcrypt_hash bcrypt_compare POST_cars_id_delete
      (mkRequest bd idB t) (mkRequest bd idNone t) w.
Proof.
  intros [[uid fl] d] a b c idB idNone j bd p t Hnd Huid Hc Hown Hba HidB HidN Hj.
  cbn [session database Session.userId] in *. subst uid.
  assert (NB : forall x, In x (cars d) -> matches (Car._id c) (Some a) x = false).
  { apply matches_foreign_id; try assumption. rewrite Hown. congruence. }
  assert (NN : forall x, In x (cars d) -> matches j (Some a) x = false).
  { apply matches_absent_id. assumption. }
  pose proof (castObjectId_truthy _ _ HidB) as TB.
  pose proof (castObjectId_truthy _ _ HidN) as TN.
  unfold indistinguishable.
  repeat split.
  - run. rewrite TB, TN. cbn.
    match goal with |- context [Car_updateOne (JStr idB) _ ?u _ _] =>
      destruct (Car_updateOne_no_match_same _ _ _ _ (Some a) u t d HidB HidN NB NN)
        as [E _] end.
    rewrite E. reflexivity.
  - run. rewrite TB. cbn.
    match goal with |- context [Car_updateOne (JStr idB) _ ?u _ _] =>
      destruct (Car_updateOne_no_match _ _ (Some a) u t d HidB NB)
        as [E|[path E]] end; rewrite E; reflexivity.
  - run. rewrite TB, TN. cbn.
    rewrite (Car_deleteOne_no_match _ _ (Some a) d HidB NB).
    rewrite (Car_deleteOne_no_match _ _ (Some a) d HidN NN). reflexivity.
  - run. rewrite TB. cbn.
    rewrite (Car_deleteOne_no_match _ _ (Some a) d HidB NB). reflexivity.
  - run.
    match goal with |- context [Car_updateOne (JStr idB) _ ?u _ _] =>
      destruct (Car_updateOne_no_match_same _ _ _ _ (Some a) u t d HidB HidN NB NN)
        as [E _] end.
    rewrite E. reflexivity.
  - run.
    match goal with |- context [Car_updateOne (JStr idB) _ ?u _ _] =>
      destruct (Car_updateOne_no_match _ _ (Some a) u t d HidB NB)
        as [E|[path E]] end; rewrite E; reflexivity.
  - run.
    rewrite (Car_deleteOne_no_match _ _ (Some a) d HidB NB).
    rewrite (Car_deleteOne_no_match _ _ (Some a) d HidN NN). reflexivity.
  - run.
    rewrite (Car_deleteOne_no_match _ _ (Some a) d HidB NB). reflexivity.
Qed.

End Isolation.

Lemma foreign_id_acts_like_missing_id_witness :
  let w := Sample.as_alice in
  let bd := Sample.car_body "Mine now" 2021 1 "diesel" "manual" in
  (NoDup (map Car._id (cars (database w))) /\
   Session.userId (session w) = Some 1%N /\
   In Sample.leaf (cars (database w)) /\
   Car.owner Sample.leaf = Some 2%N /\
   2%N <> 1%N /\
   castObjectId (JStr Sample.id_leaf) = Some (Car._id Sample.leaf) /\
   castObjectId (JStr Sample.id_nine) = Some 9%N /\
   ~ In 9%N (map Car._id (cars (database w)))) /\
  indistinguishable Sample.hash Sample.compare POST_modify
    (mkRequest (Body.with_id bd (JStr Sample.id_leaf)) "" 40)
    (mkRequest (Body.with_id bd (JStr Sample.id_nine)) "" 40) w /\
  indistinguishable Sample.hash Sample.compare POST_delete
    (mkRequest (Body.with_id bd (JStr Sample.id_leaf)) "" 40)
    (mkRequest (Body.with_id bd (JStr Sample.id_nine)) "" 40) w /\
  indistinguishable Sample.hash Sample.compare POST_cars_id_update
    (mkRequest bd Sample.id_leaf 40) (mkRequest bd Sample.id_nine 40) w /\
  indistinguishable Sample.hash Sample.compare POST_cars_id_delete
    (mkRequest bd Sample.id_leaf 40) (mkRequest bd Sample.id_nine 40) w.
Proof.
  assert (Hnd : NoDup (map Car._id (cars (database Sample.as_alice)))).
  { simpl. repeat constructor; simpl; intuition discriminate. }
  assert (Hj : ~ In 9%N (map Car._id (cars (database Sample.as_alice)))).
  { simpl. intuition discriminate. }
  assert (Hin : In Sample.leaf (cars (database Sample.as_alice))).
  { simpl. auto. }
  assert (Hne : 2%N <> 1%N) by discriminate.
  split.
  - repeat split; try assumption; reflexivity.
  - apply (foreign_id_acts_like_missing_id Sample.hash Sample.compare
             Sample.as_alice 1%N 2%N Sample.leaf Sample.id_leaf Sample.id_nine 9%N);
      try assumption; reflexivity.
Defined.

Section Frame.

Variable bcrypt_hash : string -> string.
Variable bcrypt_compare : string -> string -> bool.

Lemma Car_updateOne_ownership id owner u t d :
  map (fun c => (Car._id c, Car.owner c)) (cars (snd (Car_updateOne id owner u t d))) =
  map (fun c => (Car._id c, Car.owner c)) (cars d).
Proof.
  unfold Car_updateOne.
  destruct (castObjectId id); [|reflexivity].
  destruct (castNumber (Fields.year u)), (castNumber (Fields.mpg u));
    try reflexivity.
  simpl. apply update_first_map. intros x. reflexivity.
Qed.

(** The gate in front of the JSON routes may add the demo user; it never
    touches the cars. *)
Lemma User_findOne_db name d : snd (User_findOne name d) = d.
Proof. unfold User_findOne. destruct (castString name); reflexivity. Qed.

Lemma User_create_cars name h d : cars (snd (User_create name h d)) = cars d.
Proof. unfold User_create. destruct (castString name); reflexivity. Qed.

(** C10. No update changes the owner of a car: after POST /modify and after
    POST /cars/:id/update, whatever the session and the request, every
    stored car has the id and the owner it had before. *)
Theorem update_preserves_owner :
  forall (w : world) (req : request),
    ownership (snd (serve bcrypt_hash bcrypt_compare POST_modify req w)) = ownership w /\
    ownership (snd (serve bcrypt_hash bcrypt_compare POST_cars_id_update req w)) = ownership w.
Proof.
  intros [[uid fl] d] req. unfold ownership. split.
  - run. destruct uid as [a|]; cbn.
    + destruct (js_not (Body.id (body req))); cbn; [reflexivity|].
      match goal with |- context [Car_updateOne ?i ?o ?u ?t ?d] =>
        pose proof (Car_updateOne_ownership i o u t d) as H;
        destruct (Car_updateOne i o u t d) as [[[]|e] d'] end; cbn in *; exact H.
    + destruct (find _ (users d)) as [demo|]; cbn.
      * destruct (js_not (Body.id (body req))); cbn; [reflexivity|].
        match goal with |- context [Car_updateOne ?i ?o ?u ?t ?d] =>
          pose proof (Car_updateOne_ownership i o u t d) as H;
          destruct (Car_updateOne i o u t d) as [[[]|e] d'] end; cbn in *; exact H.
      * destruct (js_not (Body.id (body req))); cbn; [reflexivity|].
        match goal with |- context [Car_updateOne ?i ?o ?u ?t ?d] =>
          pose proof (Car_updateOne_ownership i o u t d) as H;
          destruct (Car_updateOne i o u t d) as [[[]|e] d'] end; cbn in *; exact H.
  - run. destruct uid as [a|]; cbn; [|reflexivity].
    match goal with |- context [Car_updateOne ?i ?o ?u ?t ?d] =>
      pose proof (Car_updateOne_ownership i o u t d) as H;
      destruct (Car_updateOne i o u t d) as [[[]|e] d'] end; cbn in *; exact H.
Qed.

End Frame.

Section Login.

Variable bcrypt_hash : string -> string.
Variable bcrypt_compare : string -> string -> bool.

Lemma js_not_nonempty (s : string) : s <> "" -> js_not (JStr s) = false.
Proof.
  intros H. unfold js_not. simpl. destruct (String.eqb_spec s ""); [contradiction|reflexivity].
Qed.

Lemma find_snoc {A} (f : A -> bool) (l : list A) (x : A) :
  (forall y, In y l -> f y = false) -> f x = true -> find f (l ++ [x]) = Some x.
Proof.
  intros Hl Hx. induction l as [|y r IH]; simpl.
  - rewrite Hx. reflexivity.
  - rewrite (Hl y (or_introl eq_refl)). apply IH. intros z Hz. apply Hl. right. exact Hz.
Qed.

Lemma find_none_iff {A} (f : A -> bool) (l : list A) :
  (forall y, In y l -> f y = false) -> find f l = None.
Proof.
  intros Hl. induction l as [|y r IH]; simpl; [reflexivity|].
  rewrite (Hl y (or_introl eq_refl)). apply IH. intros z Hz. apply Hl. right. exact Hz.
Qed.

Lemma never_seen_find name d :
  never_seen name d ->
  forall y, In y (users d) -> (User.username y =? name)%string = false.
Proof.
  intros H y Hy. destruct (String.eqb_spec (User.username y) name); [|reflexivity].
  exfalso. exact (H y Hy e).
Qed.

(** C3, as amended.  A login whose username or password is missing or
    empty is turned away before any lookup: the answer is the redirect to
    the entry page with the message "Username and password required.", and
    the session's user and the database are as they were.  For every
    non-empty username and password: POST /login under a name no account
    carries answers with a redirect to the dashboard, appends exactly one
    account of that name, holding the hash of the password, and puts its id
    in the session; on the resulting database a login under the same name
    and password, which [bcrypt.compare] accepts against that hash,
    redirects from any session to the dashboard with that id in the session
    and leaves the database as it is; and a login under the same name with
    a password that [bcrypt.compare] refuses against that hash redirects to
    the entry page with the message "Incorrect password.", leaves the
    session's user as it was and leaves the database as it is. *)
Theorem login_registers_then_verifies :
  (forall (b : Body.t) (p : string) (t : nat) (w : world),
      js_not (Body.username b) || js_not (Body.password b) = true ->
      serve bcrypt_hash bcrypt_compare POST_login (mkRequest b p t) w =
        (Redirect "/",
         mkWorld (Session.mk (Session.userId (session w))
                             (Some "Username and password required."))
                 (database w))) /\
  (forall (name pass : string) (b : Body.t) (p : string) (t : nat) (w : world),
      name <> "" ->
      pass <> "" ->
      never_seen name (database w) ->
      exists (account : User.t) (d1 : db),
        User.username account = name /\
        User.password account = bcrypt_hash pass /\
        d1 = mkDb (users (database w) ++ [account]) (cars (database w))
                  (N.succ (nextId (database w))) /\
        serve bcrypt_hash bcrypt_compare POST_login (login_request b p t name pass) w =
          (Redirect "/dashboard",
           mkWorld (Session.mk (Some (User._id account))
                               (Some "New account created and logged in.")) d1) /\
        (bcrypt_compare pass (User.password account) = true ->
         forall s b' p' t',
           serve bcrypt_hash bcrypt_compare POST_login
                 (login_request b' p' t' name pass) (mkWorld s d1) =
             (Redirect "/dashboard",
              mkWorld (Session.mk (Some (User._id account)) None) d1)) /\
        (forall s b' p' t' wrong,
            wrong <> "" ->
            bcrypt_compare wrong (User.password account) = false ->
            serve bcrypt_hash bcrypt_compare POST_login
                  (login_request b' p' t' name wrong) (mkWorld s d1) =
              (Redirect "/",
               mkWorld (Session.mk (Session.userId s) (Some "Incorrect password."))
                       d1))).
Proof.
  split.
  - intros b p t [[uid fl] d] Hb.
    unfold serve, app, flash_middleware, post_login. cbn [body].
    rewrite Hb. reflexivity.
  - intros name pass b p t [[uid fl] d] Hname Hpass Hnew. cbn [database] in *.
    pose proof (never_seen_find _ _ Hnew) as Hfind.
    pose proof (js_not_nonempty _ Hname) as Tn.
    pose proof (js_not_nonempty _ Hpass) as Tp.
    set (account := User.mk (nextId d) name (bcrypt_hash pass)).
    assert (Hacc : find (fun u => (User.username u =? name)%string)
                        (users d ++ [account]) = Some account).
    { apply find_snoc; [exact Hfind|]. apply String.eqb_refl. }
    exists account. eexists.
    split; [reflexivity|]. split; [reflexivity|]. split; [reflexivity|].
    split; [|split].
    + run. rewrite Tn, Tp. cbn. unfold User_findOne. cbn.
      rewrite (find_none_iff _ _ Hfind). cbn. reflexivity.
    + intros Hok s b' p' t'. cbn in Hok.
      run. rewrite Tn, Tp. cbn. unfold User_findOne. cbn.
      rewrite Hacc. cbn. rewrite Hok. cbn. reflexivity.
    + intros s b' p' t' wrong Hwrong Hno. cbn in Hno.
      run. rewrite Tn. rewrite (js_not_nonempty _ Hwrong). cbn.
      unfold User_findOne. cbn. rewrite Hacc. cbn. rewrite Hno. reflexivity.
Qed.

End Login.

Lemma login_registers_then_verifies_witness :
  let no_password := Sample.login_body "carol" "" in
  (js_not (Body.username no_password) || js_not (Body.password no_password) = true /\
   "carol" <> "" /\ "s3cret" <> "" /\ "guess" <> "" /\
   never_seen "carol" (database Sample.anonymous) /\
   Sample.compare "s3cret" (Sample.hash "s3cret") = true /\
   Sample.compare "guess" (Sample.hash "s3cret") = false) /\
  serve Sample.hash Sample.compare POST_login (mkRequest no_password "" 50)
        Sample.as_bob =
    (Redirect "/",
     mkWorld (Session.mk (Some 2%N) (Some "Username and password required."))
             Sample.store) /\
  exists (account : User.t) (d1 : db),
    User.username account = "carol" /\
    User.password account = Sample.hash "s3cret" /\
    d1 = mkDb (users Sample.store ++ [account]) (cars Sample.store) 7%N /\
    serve Sample.hash Sample.compare POST_login
          (login_request Body.empty "" 50 "carol" "s3cret") Sample.anonymous =
      (Redirect "/dashboard",
       mkWorld (Session.mk (Some (User._id account))
                           (Some "New account created and logged in.")) d1) /\
    serve Sample.hash Sample.compare POST_login
          (login_request Body.empty "" 51 "carol" "s3cret")
          (mkWorld Session.empty d1) =
      (Redirect "/dashboard",
       mkWorld (Session.mk (Some (User._id account)) None) d1) /\
    serve Sample.hash Sample.compare POST_login
          (login_request Body.empty "" 52 "carol" "guess")
          (mkWorld (Session.mk (Some 2%N) None) d1) =
      (Redirect "/",
       mkWorld (Session.mk (Some 2%N) (Some "Incorrect password.")) d1).
Proof.
  assert (Hnew : never_seen "carol" (database Sample.anonymous)).
  { intros u Hu. simpl in Hu. destruct Hu as [<-|[<-|[]]]; discriminate. }
  assert (H1 : "carol" <> "") by discriminate.
  assert (H2 : "s3cret" <> "") by discriminate.
  assert (H3 : "guess" <> "") by discriminate.
  split; [|split].
  - repeat split; try assumption; reflexivity.
  - exact (proj1 (login_registers_then_verifies Sample.hash Sample.compare)
                 (Sample.login_body "carol" "") "" 50%nat Sample.as_bob eq_refl).
  - destruct (proj2 (login_registers_then_verifies Sample.hash Sample.compare)
                    "carol" "s3cret" Body.empty "" 50%nat Sample.anonymous
                    H1 H2 Hnew)
      as (account & d1 & Hname & Hpass & Hd1 & Hfirst & Hsecond & Hwrong).
    exists account, d1.
    split; [exact Hname|]. split; [exact Hpass|]. split; [exact Hd1|].
    split; [exact Hfirst|]. split.
    + apply Hsecond. rewrite Hpass. reflexivity.
    + apply Hwrong; [exact H3|]. rewrite Hpass. reflexivity.
Defined.

(** C3 as stated fails for an empty password: under a name no account
    carries, the login is turned away before any lookup; no account is
    created and no user is put in the session. *)
Lemma login_empty_password_registers_nothing :
  never_seen "carol" Sample.store /\
  serve Sample.hash Sample.compare POST_login
        (login_request Body.empty "" 50 "carol" "") Sample.anonymous =
    (Redirect "/",
     mkWorld (Session.mk None (Some "Username and password required.")) Sample.store).
Proof.
  split; [|reflexivity].
  intros u Hu. simpl in Hu. destruct Hu as [<-|[<-|[]]]; discriminate.
Qed.

Section Add.

Variable bcrypt_hash : string -> string.
Variable bcrypt_compare : string -> string -> bool.

(** The permissive gate never fails: the handler behind it runs from
    [attach_demo]. *)
Lemma ensureLoggedInOrDemo_run (next : M response) (w : world) :
  ensureLoggedInOrDemo bcrypt_hash next w = next (attach_demo bcrypt_hash w).
Proof.
  destruct w as [[uid fl] d]. unfold attach_demo. run.
  destruct uid as [a|]; [reflexivity|]. unfold User_findOne. cbn.
  destruct (find _ (users d)) as [demo|]; reflexivity.
Qed.

Lemma attach_demo_cars (w : world) :
  cars (database (attach_demo bcrypt_hash w)) = cars (database w).
Proof.
  destruct w as [[uid fl] d]. unfold attach_demo. cbn.
  destruct uid; [reflexivity|]. destruct (find _ (users d)); reflexivity.
Qed.

Lemma attach_demo_user (w : world) :
  Session.userId (session (attach_demo bcrypt_hash w)) <> None.
Proof.
  destruct w as [[uid fl] d]. unfold attach_demo. cbn.
  destruct uid; [discriminate|]. destruct (find _ (users d)); discriminate.
Qed.

(** Every JSON route runs its handler from the gated world. *)
Lemma serve_POST_add req w :
  serve bcrypt_hash bcrypt_compare POST_add req w =
  match post_add req (attach_demo bcrypt_hash (consume_flash w)) with
  | (Ok res, w') => (res, w')
  | (Throw e, w') => (Unhandled e, w')
  end.
Proof.
  unfold serve, app, flash_middleware, bind, get_flash, delete_flash, ret.
  cbn -[ensureLoggedInOrDemo post_add].
  rewrite ensureLoggedInOrDemo_run. reflexivity.
Qed.

Lemma trim_enum (l : list string) (f : string) :
  l = allowedFuels \/ l = allowedTransmissions -> In f l -> trim f = f.
Proof.
  intros [-> | ->] H; simpl in H;
    repeat (destruct H as [<-|H]; [reflexivity|]); contradiction.
Qed.

Lemma includes_enum (l : list string) (f : string) :
  In f l -> includes l (JStr f) = true.
Proof.
  unfold includes. intros H. apply existsb_exists. exists f. split; [exact H|].
  simpl. apply String.eqb_refl.
Qed.

Lemma enum_ok_in (l : list string) (f : string) :
  In f l -> enum_ok l (Value f) = true.
Proof.
  intros H. simpl. apply existsb_exists. exists f. split; [exact H|].
  apply String.eqb_refl.
Qed.

Lemma trim_nonempty (m : string) : trim m <> "" -> m <> "".
Proof. intros H ->. apply H. reflexivity. Qed.

Lemma notes_stored (v r : jsval) :
  optional_trim v = Ok r ->
  with_default (castString (js_or r (JStr ""))) "" = Some (notes_text v).
Proof.
  destruct v as [| |b|n|s]; simpl; intros H; inversion H; subst; try reflexivity.
  unfold js_or. simpl. destruct (String.eqb_spec (trim s) ""); simpl; congruence.
Qed.

(** A body with proper car fields, a year from 1885 on and a positive mpg
    is stored and answered with the redirect to the dashboard. *)
Lemma post_add_accepts (b : Body.t) (p : string) (t : nat) (w : world)
      (m : string) (y g : Z) (f tr : string) :
  car_fields b m y g f tr -> 1885 <= y -> 0 < g ->
  post_add (mkRequest b p t) w =
    (Ok (Redirect "/dashboard"), with_car w (added_car b m y g f tr t w)).
Proof.
  intros (Hm & Hmt & Hy & Hg & Hf & Hfin & Htr & Htrin & Hn) Hy1885 Hg0.
  destruct w as [[uid fl] d].
  assert (exists r, optional_trim (Body.notes b) = Ok r) as [r Hr].
  { destruct Hn as [->|[->|[n ->]]]; eexists; reflexivity. }
  pose proof (notes_stored _ _ Hr) as Hnotes.
  unfold post_add, with_car, added_car. cbn [body now session database].
  rewrite Hm, Hy, Hg, Hf, Htr.
  rewrite (js_not_nonempty m (trim_nonempty m Hmt)).
  assert (Ty : js_not (JNum (Num y)) = false).
  { unfold js_not. simpl. destruct (Z.eqb_spec y 0); [lia|reflexivity]. }
  assert (Tg : js_not (JNum (Num g)) = false).
  { unfold js_not. simpl. destruct (Z.eqb_spec g 0); [lia|reflexivity]. }
  rewrite Ty, Tg. cbn [orb].
  assert (Ly : lt_const (JNum (Num y)) 1885 = false).
  { unfold lt_const. simpl. apply Z.ltb_ge. exact Hy1885. }
  rewrite Ly.
  rewrite (includes_enum allowedFuels f Hfin).
  rewrite (includes_enum allowedTransmissions tr Htrin). cbn [negb].
  run. rewrite Hr. cbn.
  rewrite (trim_enum allowedFuels f (or_introl eq_refl) Hfin).
  rewrite (trim_enum allowedTransmissions tr (or_intror eq_refl) Htrin).
  unfold Car_create, Car_validate, cast_failures.
  cbn [Fields.model Fields.year Fields.mpg
    Fields.fuel Fields.transmission Fields.notes Fields.owner Fields.isElectric
    castString castNumber required_ok min_fails stored].
  destruct (String.eqb_spec (trim m) ""); [contradiction|]. cbn [negb].
  rewrite (proj2 (Z.ltb_ge y 1885) Hy1885).
  rewrite (proj2 (Z.ltb_ge g 0)) by lia.
  rewrite (enum_ok_in enum_fuel f Hfin).
  rewrite (enum_ok_in enum_transmission tr Htrin).
  cbn [app]. rewrite Hnotes. reflexivity.
Qed.

(** A year below 1885 never reaches the store: the first check answers
    when one of model, year, mpg is missing, the second otherwise. *)
Lemma post_add_rejects_low_year (req : request) (w : world) :
  lt_const (Body.year (body req)) 1885 = true ->
  post_add req w =
    (Ok (Json 400 (ErrorBody (if required_present (body req)
                              then msg_year else msg_required))), w).
Proof.
  intros Hlt. unfold post_add, required_present, js_not. rewrite Hlt.
  destruct (truthy (Body.model (body req))),
           (truthy (Body.year (body req))),
           (truthy (Body.mpg (body req))); reflexivity.
Qed.

(** C4, as amended.  On POST /add, every body whose year is below 1885 is
    answered with a 400 JSON error and no car is stored; the message is
    "Year must be 1885 or later." whenever model, year and mpg are all
    present, the check for missing fields coming first.  Every body with
    proper car fields (a model that [trim] does not empty among them), a
    positive mpg and the year 1885 is accepted: the car is stored and the
    answer is the redirect to the dashboard. *)
Theorem add_year_bound :
  forall (b : Body.t) (p : string) (t : nat) (w : world),
    let w0 := attach_demo bcrypt_hash (consume_flash w) in
    (lt_const (Body.year b) 1885 = true ->
     (exists msg,
         serve bcrypt_hash bcrypt_compare POST_add (mkRequest b p t) w =
           (Json 400 (ErrorBody msg), w0) /\
         (required_present b = true -> msg = msg_year)) /\
     cars (database w0) = cars (database w)) /\
    (forall (m : string) (g : Z) (f tr : string),
        car_fields b m 1885 g f tr ->
        0 < g ->
        serve bcrypt_hash bcrypt_compare POST_add (mkRequest b p t) w =
          (Redirect "/dashboard", with_car w0 (added_car b m 1885 g f tr t w0))).
Proof.
  intros b p t w w0. split.
  - intros Hlt. split.
    + eexists. split.
      * rewrite serve_POST_add.
        rewrite (post_add_rejects_low_year (mkRequest b p t) _ Hlt). reflexivity.
      * cbn [body]. intros ->. reflexivity.
    + unfold w0. rewrite attach_demo_cars. reflexivity.
  - intros m g f tr Hb Hg. rewrite serve_POST_add.
    rewrite (post_add_accepts b p t _ m 1885 g f tr Hb); [reflexivity|lia|exact Hg].
Qed.

End Add.

Lemma add_year_bound_witness :
  let low := Sample.car_body "X" 1800 10 "gasoline" "auto" in
  let edge := Sample.car_body "Benz Patent-Motorwagen" 1885 25 "gasoline" "manual" in
  let w0 := attach_demo Sample.hash (consume_flash Sample.as_alice) in
  (lt_const (Body.year low) 1885 = true /\
   car_fields edge "Benz Patent-Motorwagen" 1885 25 "gasoline" "manual" /\
   0 < 25) /\
  ((exists msg,
       serve Sample.hash Sample.compare POST_add (mkRequest low "" 40) Sample.as_alice =
         (Json 400 (ErrorBody msg), w0) /\
       (required_present low = true -> msg = msg_year)) /\
   cars (database w0) = cars (database Sample.as_alice)) /\
  serve Sample.hash Sample.compare POST_add (mkRequest edge "" 40) Sample.as_alice =
    (Redirect "/dashboard",
     with_car w0 (added_car edge "Benz Patent-Motorwagen" 1885 25
                            "gasoline" "manual" 40 w0)).
Proof.
  assert (Hf : car_fields (Sample.car_body "Benz Patent-Motorwagen" 1885 25
                                           "gasoline" "manual")
                          "Benz Patent-Motorwagen" 1885 25 "gasoline" "manual").
  { unfold car_fields. cbn.
    repeat split; try reflexivity; try discriminate; auto. }
  assert (Hg : 0 < 25) by lia.
  split; [|split].
  - repeat split; try reflexivity; apply Hf.
  - exact (proj1 (add_year_bound Sample.hash Sample.compare
                    (Sample.car_body "X" 1800 10 "gasoline" "auto") "" 40%nat
                    Sample.as_alice) eq_refl).
  - exact (proj2 (add_year_bound Sample.hash Sample.compare
                    (Sample.car_body "Benz Patent-Motorwagen" 1885 25
                                     "gasoline" "manual") "" 40%nat
                    Sample.as_alice)
                 "Benz Patent-Motorwagen" 25 "gasoline" "manual" Hf Hg).
Defined.

(** C4 as stated fails on the message: a body whose year is below 1885 but
    whose model is missing is answered by the check for missing fields,
    which comes first, not with the message about the year. *)
Lemma add_low_year_other_message :
  let no_model :=
    Body.mk JUndefined JUndefined JUndefined JUndefined (JNum (Num 1800))
            (JNum (Num 10)) JUndefined (JStr "gasoline") JUndefined (JStr "auto") in
  lt_const (Body.year no_model) 1885 = true /\
  fst (serve Sample.hash Sample.compare POST_add (mkRequest no_model "" 40)
             Sample.as_alice) =
    Json 400 (ErrorBody "Model, year, and MPG are required fields.") /\
  fst (serve Sample.hash Sample.compare POST_add (mkRequest no_model "" 40)
             Sample.as_alice) <>
    Json 400 (ErrorBody "Year must be 1885 or later.").
Proof. repeat split; try reflexivity; discriminate. Qed.

Section JsonMutations.

Variable bcrypt_hash : string -> string.
Variable bcrypt_compare : string -> string -> bool.

Lemma serve_gated (r : route) (h : M response) (req : request) (w : world) :
  app bcrypt_hash bcrypt_compare r req =
    (locals_flash <- flash_middleware ;; ensureLoggedInOrDemo bcrypt_hash h) ->
  serve bcrypt_hash bcrypt_compare r req w =
  match h (attach_demo bcrypt_hash (consume_flash w)) with
  | (Ok res, w') => (res, w')
  | (Throw e, w') => (Unhandled e, w')
  end.
Proof.
  intros Happ. unfold serve. rewrite Happ.
  unfold flash_middleware, bind, get_flash, delete_flash, ret.
  cbn -[ensureLoggedInOrDemo].
  rewrite ensureLoggedInOrDemo_run. reflexivity.
Qed.







End JsonMutations.


Section Logout.

Variable bcrypt_hash : string -> string.
Variable bcrypt_compare : string -> string -> bool.

(** Without a user in the session, a route that does not identify the
    client leaves the session without a user, and a strict route answers
    with the redirect to the entry page. *)
Lemma serve_anonymous (r : route) (req : request) (w : world) :
  Session.userId (session w) = None ->
  identifies r = false ->
  Session.userId (session (snd (serve bcrypt_hash bcrypt_compare r req w))) = None /\
  (strict r = true -> fst (serve bcrypt_hash bcrypt_compare r req w) = Redirect "/").
Proof.
  destruct w as [[uid fl] d]. cbn. intros -> Hr.
  destruct r; try discriminate Hr; run; split; try reflexivity; discriminate.
Qed.

Lemma serve_all_anonymous (rs : list (route * request)) :
  forallb (fun x => negb (identifies (fst x))) rs = true ->
  forall (w : world),
    Session.userId (session w) = None ->
    Session.userId (session (snd (serve_all bcrypt_hash bcrypt_compare rs w))) = None /\
    forall i r req,
      nth_error rs i = Some (r, req) ->
      strict r = true ->
      nth_error (fst (serve_all bcrypt_hash bcrypt_compare rs w)) i = Some (Redirect "/").
Proof.
  induction rs as [|[r req] rest IH]; intros Hrs w Hw.
  - split; [exact Hw|]. intros [|i] r req H; discriminate H.
  - simpl in Hrs. apply andb_true_iff in Hrs. destruct Hrs as [Hr Hrest].
    apply negb_true_iff in Hr.
    destruct (serve_anonymous r req w Hw Hr) as [Hw1 Hres].
    simpl.
    destruct (serve bcrypt_hash bcrypt_compare r req w) as [res w1] eqn:E1.
    cbn [fst snd] in *.
    destruct (IH Hrest w1 Hw1) as [Hw2 Hout].
    destruct (serve_all bcrypt_hash bcrypt_compare rest w1) as [out w2] eqn:E2.
    cbn [fst snd] in *. split; [exact Hw2|].
    intros [|i] r' req' Hnth Hstrict; simpl in *.
    + inversion Hnth; subst. rewrite (Hres Hstrict). reflexivity.
    + eapply Hout; eauto.
Qed.

(** C9, as amended.  POST /logout, from any session and so from one without
    a user too, empties the session, leaves the database alone and answers
    with the redirect to the entry page.  In every sequence of requests that
    follows and holds neither a login nor a request to a route behind the
    demo gate, every request to a strict route is answered with the
    redirect to the entry page. *)
Theorem logout_then_strict_routes_redirect :
  forall (req0 : request) (w : world) (rs : list (route * request)),
    serve bcrypt_hash bcrypt_compare POST_logout req0 w =
      (Redirect "/", mkWorld Session.empty (database w)) /\
    (forallb (fun x => negb (identifies (fst x))) rs = true ->
     forall i r req,
       nth_error rs i = Some (r, req) ->
       strict r = true ->
       nth_error
         (fst (serve_all bcrypt_hash bcrypt_compare ((POST_logout, req0) :: rs) w))
         (S i) = Some (Redirect "/")).
Proof.
  intros req0 w rs. split; [reflexivity|].
  intros Hrs i r req Hnth Hstrict.
  cbn [serve_all].
  change (serve bcrypt_hash bcrypt_compare POST_logout req0 w)
    with (Redirect "/", mkWorld Session.empty (database w)).
  cbn iota.
  destruct (serve_all_anonymous rs Hrs (mkWorld Session.empty (database w)) eq_refl)
    as [_ Hout].
  specialize (Hout i r req Hnth Hstrict).
  destruct (serve_all bcrypt_hash bcrypt_compare rs _) as [out w2].
  exact Hout.
Qed.

End Logout.

Lemma logout_then_strict_routes_redirect_witness :
  let rs := [(GET_root, Sample.at_time 41 Body.empty);
             (GET_dashboard, Sample.at_time 42 Body.empty);
             (Other, Sample.at_time 43 Body.empty);
             (GET_api_me, Sample.at_time 44 Body.empty)] in
  (forallb (fun x => negb (identifies (fst x))) rs = true /\
   nth_error rs 3 = Some (GET_api_me, Sample.at_time 44 Body.empty) /\
   strict GET_api_me = true) /\
  nth_error
    (fst (serve_all Sample.hash Sample.compare
                    ((POST_logout, Sample.at_time 40 Body.empty) :: rs)
                    Sample.as_alice))
    4 = Some (Redirect "/").
Proof.
  split.
  - repeat split; reflexivity.
  - exact (proj2 (logout_then_strict_routes_redirect Sample.hash Sample.compare
                    (Sample.at_time 40 Body.empty) Sample.as_alice
                    [(GET_root, Sample.at_time 41 Body.empty);
                     (GET_dashboard, Sample.at_time 42 Body.empty);
                     (Other, Sample.at_time 43 Body.empty);
                     (GET_api_me, Sample.at_time 44 Body.empty)])
                 eq_refl 3%nat GET_api_me (Sample.at_time 44 Body.empty)
                 eq_refl eq_refl).
Defined.

(** C9 as stated fails after a request to a route behind the demo gate:
    Alice logs out, nobody logs in, GET /data attaches the demo account to
    the session, and GET /dashboard then renders the dashboard instead of
    redirecting. *)
Lemma logout_then_data_then_dashboard_renders :
  fst (serve_all Sample.hash Sample.compare
         [(POST_logout, Sample.at_time 40 Body.empty);
          (GET_data, Sample.at_time 41 Body.empty);
          (GET_dashboard, Sample.at_time 42 Body.empty)]
         Sample.as_alice) =
    [Redirect "/";
     Json 200 (CarsBody []);
     RenderDashboard "Dashboard • Car Tracker" None
                     (User.mk 6%N "demo" (Sample.hash "demo")) []] /\
  strict GET_dashboard = true /\
  nth_error
    (fst (serve_all Sample.hash Sample.compare
            [(POST_logout, Sample.at_time 40 Body.empty);
             (GET_data, Sample.at_time 41 Body.empty);
             (GET_dashboard, Sample.at_time 42 Body.empty)]
            Sample.as_alice)) 2 <> Some (Redirect "/").
Proof. repeat split; try reflexivity; discriminate. Qed.

Section Listing.

Variable bcrypt_hash : string -> string.
Variable bcrypt_compare : string -> string -> bool.

Lemma insert_desc_perm (c : Car.t) (l : list Car.t) :
  Permutation (c :: l) (insert_desc c l).
Proof.
  induction l as [|x r IH]; simpl; [reflexivity|].
  destruct (Car.createdAt x <=? Car.createdAt c)%nat; [reflexivity|].
  rewrite perm_swap. apply perm_skip. exact IH.
Qed.

Lemma sort_createdAt_desc_perm (l : list Car.t) :
  Permutation l (sort_createdAt_desc l).
Proof.
  induction l as [|x r IH]; simpl; [constructor|].
  rewrite <- insert_desc_perm. apply perm_skip. exact IH.
Qed.

Lemma insert_desc_sorted (c : Car.t) (l : list Car.t) :
  StronglySorted newer_first l -> StronglySorted newer_first (insert_desc c l).
Proof.
  induction 1 as [|x r Hr IH Hx]; simpl.
  - repeat constructor.
  - destruct (Nat.leb_spec (Car.createdAt x) (Car.createdAt c)) as [Hle|Hlt].
    + constructor; [constructor; assumption|].
      constructor; [exact Hle|].
      apply Forall_forall. intros y Hy.
      rewrite Forall_forall in Hx. specialize (Hx y Hy).
      unfold newer_first in *. lia.
    + constructor; [exact IH|].
      apply Forall_forall. intros y Hy.
      apply (Permutation_in _ (Permutation_sym (insert_desc_perm c r))) in Hy.
      destruct Hy as [<-|Hy].
      * unfold newer_first. lia.
      * rewrite Forall_forall in Hx. exact (Hx y Hy).
Qed.

Lemma sort_createdAt_desc_sorted (l : list Car.t) :
  StronglySorted newer_first (sort_createdAt_desc l).
Proof.
  induction l as [|x r IH]; simpl; [constructor|].
  apply insert_desc_sorted. exact IH.
Qed.

(** X13. GET /dashboard, for a session whose user exists, renders that
    user's cars, all of them, the latest first. *)
Lemma dashboard_lists_latest_first (req : request) (w : world) (u : User.t) :
  Session.userId (session w) = Some (User._id u) ->
  fst (User_findById (Some (User._id u)) (database w)) = Ok (Some u) ->
  exists listed,
    serve bcrypt_hash bcrypt_compare GET_dashboard req w =
      (RenderDashboard "Dashboard • Car Tracker" (Session.flash (session w)) u listed,
       consume_flash w) /\
    Permutation (cars_of w) listed /\
    StronglySorted newer_first listed.
Proof.
  destruct w as [[uid fl] d]. cbn [session database Session.userId Session.flash].
  intros -> Hfind. unfold User_findById in Hfind. cbn in Hfind.
  inversion Hfind as [Hfind']. eexists. split; [|split].
  - run. unfold User_findById. cbn. rewrite Hfind'. cbn. reflexivity.
  - unfold cars_of. cbn. apply sort_createdAt_desc_perm.
  - apply sort_createdAt_desc_sorted.
Qed.

(** GET /data and GET /api/me list the caller's cars in the order of the
    collection. *)
Lemma data_lists_in_collection_order (req : request) (w : world) :
  Session.userId (session w) <> None ->
  serve bcrypt_hash bcrypt_compare GET_data req w =
    (Json 200 (CarsBody (cars_of w)), consume_flash w) /\
  exists me,
    serve bcrypt_hash bcrypt_compare GET_api_me req w =
      (Json 200 (MeBody me (cars_of w)), consume_flash w).
Proof.
  destruct w as [[[a|] fl] d]; cbn; intros H; [|contradiction].
  split; [reflexivity|]. eexists. reflexivity.
Qed.

(** X14. A proper body with a positive mpg, added and then listed by the
    same client: the list ends with the car as it was submitted. *)
Lemma add_then_data_lists_the_car (b : Body.t) (p : string) (t : nat) (w : world)
      (m : string) (y g : Z) (f tr : string) (req2 : request) :
  car_fields b m y g f tr -> 1885 <= y -> 0 < g ->
  let w0 := attach_demo bcrypt_hash (consume_flash w) in
  let c := added_car b m y g f tr t w0 in
  serve_all bcrypt_hash bcrypt_compare
            [(POST_add, mkRequest b p t); (GET_data, req2)] w =
    ([Redirect "/dashboard"; Json 200 (CarsBody (cars_of w0 ++ [c]))],
     with_car w0 c).
Proof.
  intros Hb Hy Hg w0 c. cbn [serve_all].
  rewrite serve_POST_add. fold w0.
  rewrite (post_add_accepts b p t w0 m y g f tr Hb Hy Hg). fold c.
  pose proof (attach_demo_user bcrypt_hash (consume_flash w)) as Hu. fold w0 in Hu.
  assert (Hu' : Session.userId (session (with_car w0 c)) <> None) by exact Hu.
  rewrite (proj1 (data_lists_in_collection_order req2 (with_car w0 c) Hu')).
  assert (Hflash : Session.flash (session w0) = None).
  { unfold w0, attach_demo, consume_flash. destruct w as [[uid fl] d]. cbn.
    destruct uid; [reflexivity|]. destruct (find _ (users d)); reflexivity. }
  assert (Hw : consume_flash (with_car w0 c) = with_car w0 c).
  { unfold consume_flash, with_car. cbn. destruct w0 as [[u0 f0] d0].
    cbn in *. subst f0. reflexivity. }
  rewrite Hw.
  assert (Hc : cars_of (with_car w0 c) = (cars_of w0 ++ [c])%list).
  { unfold cars_of, with_car. cbn. rewrite filter_app. cbn.
    rewrite (proj2 (oid_eqb_eq (Session.userId (session w0)) _) eq_refl).
    reflexivity. }
  rewrite Hc. reflexivity.
Qed.

End Listing.

Section Invariant.

Variable bcrypt_hash : string -> string.
Variable bcrypt_compare : string -> string -> bool.

Variable P : db -> Prop.

Lemma keeps_ret {A} (a : A) : keeps P (ret a).
Proof. intros w H. exact H. Qed.

Lemma keeps_throw {A} (e : error) : keeps P (@throw A e).
Proof. intros w H. exact H. Qed.

Lemma keeps_eval {A} (r : result A) : keeps P (eval r).
Proof. intros w H. exact H. Qed.

Lemma keeps_bind {A B} (c : M A) (k : A -> M B) :
  keeps P c -> (forall a, keeps P (k a)) -> keeps P (bind c k).
Proof.
  intros Hc Hk w H. unfold bind. specialize (Hc w H).
  destruct (c w) as [[a|e] w1]; cbn in *; [apply Hk|]; exact Hc.
Qed.

Lemma keeps_try_catch {A} (c : M A) (h : error -> M A) :
  keeps P c -> (forall e, keeps P (h e)) -> keeps P (try_catch c h).
Proof.
  intros Hc Hh w H. unfold try_catch. specialize (Hc w H).
  destruct (c w) as [[a|e] w1]; cbn in *; [|apply Hh]; exact Hc.
Qed.

Lemma keeps_await {A} (op : db -> result A * db) :
  (forall d, P d -> P (snd (op d))) -> keeps P (await op).
Proof.
  intros Hop w H. unfold await. specialize (Hop (database w) H).
  destruct (op (database w)) as [r d]. exact Hop.
Qed.

Lemma keeps_session {A} (c : M A) :
  (forall w, database (snd (c w)) = database w) -> keeps P c.
Proof. intros Hc w H. rewrite Hc. exact H. Qed.

End Invariant.

Section IdsFresh.

Variable bcrypt_hash : string -> string.
Variable bcrypt_compare : string -> string -> bool.

Lemma ids_fresh_succ (us us' : list User.t) (cs : list Car.t) (n : ObjectId) :
  ids_fresh (mkDb us cs n) -> ids_fresh (mkDb us' cs (N.succ n)).
Proof.
  intros [Hnd Hlt]. split; [exact Hnd|]. cbn in *.
  eapply Forall_impl; [|exact Hlt]. cbn. intros c Hc. lia.
Qed.

Lemma User_findOne_fresh name d : ids_fresh d -> ids_fresh (snd (User_findOne name d)).
Proof. rewrite User_findOne_db. auto. Qed.

Lemma User_create_fresh name h d : ids_fresh d -> ids_fresh (snd (User_create name h d)).
Proof.
  unfold User_create. destruct (castString name); cbn; auto.
  destruct d as [us cs n]. apply ids_fresh_succ.
Qed.

Lemma Car_create_fresh p t d : ids_fresh d -> ids_fresh (snd (Car_create p t d)).
Proof.
  unfold Car_create.
  destruct (Car_validate p); [|cbn; auto].
  destruct (castNumber (Fields.year p)); [|cbn; auto].
  destruct (castNumber (Fields.mpg p)); [|cbn; auto].
  intros [Hnd Hlt]. cbn. split; cbn.
  - rewrite map_app. cbn. apply NoDup_app; [exact Hnd|repeat constructor; intros []|].
    intros x Hx [<-|[]].
    apply in_map_iff in Hx. destruct Hx as (c & Hc & Hin).
    rewrite Forall_forall in Hlt. specialize (Hlt c Hin). cbn in Hlt. lia.
  - apply Forall_app. split.
    + eapply Forall_impl; [|exact Hlt]. cbn. intros c Hc. lia.
    + repeat constructor. cbn. lia.
Qed.

Lemma update_first_Forall {A} (Q : A -> Prop) (p : A -> bool) (f : A -> A) l :
  (forall x, Q x -> Q (f x)) -> Forall Q l -> Forall Q (update_first p f l).
Proof.
  intros Hf. induction 1 as [|x r Hx Hr IH]; cbn; [constructor|].
  destruct (p x); constructor; auto.
Qed.

Lemma Car_updateOne_fresh id o u t d :
  ids_fresh d -> ids_fresh (snd (Car_updateOne id o u t d)).
Proof.
  unfold Car_updateOne.
  destruct (castObjectId id); [|cbn; auto].
  destruct (castNumber (Fields.year u)), (castNumber (Fields.mpg u));
    try (cbn; auto; fail).
  intros [Hnd Hlt]. split; cbn.
  - rewrite update_first_map; [exact Hnd|reflexivity].
  - apply update_first_Forall; [|exact Hlt]. intros x Hx. exact Hx.
Qed.

Lemma remove_first_incl {A} (p : A -> bool) (l : list A) x :
  In x (remove_first p l) -> In x l.
Proof.
  induction l as [|y r IH]; cbn; [auto|].
  destruct (p y); cbn; [auto|]. intros [->|H]; auto.
Qed.

Lemma remove_first_NoDup {A B} (g : A -> B) (p : A -> bool) (l : list A) :
  NoDup (map g l) -> NoDup (map g (remove_first p l)).
Proof.
  induction l as [|y r IH]; cbn; intros H; [exact H|].
  inversion H as [|? ? Hn Hr]; subst.
  destruct (p y); cbn; [exact Hr|].
  constructor; [|apply IH; exact Hr].
  intros Hin. apply Hn. apply in_map_iff in Hin. destruct Hin as (x & Hx & Hin).
  apply in_map_iff. exists x. split; [exact Hx|].
  exact (remove_first_incl p r x Hin).
Qed.

Lemma Car_deleteOne_fresh id o d :
  ids_fresh d -> ids_fresh (snd (Car_deleteOne id o d)).
Proof.
  unfold Car_deleteOne.
  destruct (castObjectId id); [|cbn; auto].
  intros [Hnd Hlt]. split; cbn.
  - apply remove_first_NoDup. exact Hnd.
  - rewrite Forall_forall in *. intros x Hx. apply Hlt.
    exact (remove_first_incl _ _ _ Hx).
Qed.

Create HintDb keeps.
#[local] Hint Resolve keeps_ret keeps_throw keeps_eval keeps_bind keeps_try_catch
  keeps_await User_findOne_fresh User_create_fresh Car_create_fresh
  Car_updateOne_fresh Car_deleteOne_fresh : keeps.

Ltac keeps_step :=
  match goal with
  | H : keeps _ ?c |- keeps _ ?c => exact H
  | |- keeps _ (bind _ _) => apply keeps_bind; [|intro]
  | |- keeps _ (ret _) => apply keeps_ret
  | |- keeps _ (throw _) => apply keeps_throw
  | |- keeps _ (eval _) => apply keeps_eval
  | |- keeps _ (try_catch _ _) => apply keeps_try_catch; [|intro]
  | |- keeps _ (await _) => apply keeps_await; intros; auto with keeps
  | |- keeps _ (if ?b then _ else _) => destruct b
  | |- keeps _ (match ?x with Some _ => _ | None => _ end) => destruct x
  | |- keeps _ _ => apply keeps_session; intros [[? ?] ?]; reflexivity
  end.

Lemma requireAuth_keeps (next : M response) :
  keeps ids_fresh next -> keeps ids_fresh (requireAuth next).
Proof. intros H. unfold requireAuth. repeat keeps_step. Qed.

Lemma ensureLoggedInOrDemo_keeps (next : M response) :
  keeps ids_fresh next -> keeps ids_fresh (ensureLoggedInOrDemo bcrypt_hash next).
Proof.
  intros H. unfold ensureLoggedInOrDemo. repeat keeps_step.
Qed.

(** Serving a request keeps the ids of the cars distinct and older than
    the next fresh one: every database reached from an empty one has them
    so. *)
Lemma serve_keeps_ids_fresh (r : route) (req : request) (w : world) :
  ids_fresh (database w) ->
  ids_fresh (database (snd (serve bcrypt_hash bcrypt_compare r req w))).
Proof.
  assert (Happ : keeps ids_fresh (app bcrypt_hash bcrypt_compare r req)).
  { unfold app. apply keeps_bind.
    - unfold flash_middleware. repeat keeps_step.
    - intros fl.
      destruct r;
        try apply requireAuth_keeps; try apply ensureLoggedInOrDemo_keeps;
        unfold get_root, post_login, post_logout, get_dashboard, post_cars,
          post_cars_id_update, post_cars_id_delete, get_api_me, get_data,
          post_add, post_modify, post_delete;
        repeat keeps_step. }
  intros H. specialize (Happ w H). unfold serve.
  destruct (app bcrypt_hash bcrypt_compare r req w) as [[res|e] w']; exact Happ.
Qed.

Lemma serve_all_keeps_ids_fresh (rs : list (route * request)) (w : world) :
  ids_fresh (database w) ->
  ids_fresh (database (snd (serve_all bcrypt_hash bcrypt_compare rs w))).
Proof.
  revert w. induction rs as [|[r req] rest IH]; intros w H; cbn; [exact H|].
  pose proof (serve_keeps_ids_fresh r req w H) as H1.
  destruct (serve bcrypt_hash bcrypt_compare r req w) as [res w1]. cbn in H1.
  specialize (IH w1 H1).
  destruct (serve_all bcrypt_hash bcrypt_compare rest w1) as [out w2]. exact IH.
Qed.

End IdsFresh.

(* ===================================================================== *)
(** * Runs on which the handlers depart from the specification *)
(* ===================================================================== *)

(** C2 at a valid payload the handler turns away.  The payload of the
    specification's scenario with mpg 0 passes every validator of
    [carSchema] and is stored by POST /cars, but POST /add reads the 0 as a
    missing field: it answers 400 and the following GET /data shows no new
    car. *)
Theorem add_zero_mpg_is_turned_away :
  let b := Sample.car_body "Civic" 2020 0 "gasoline" "auto" in
  Car_validate (Fields.mk (Some 1%N) (JStr "Civic") (Num 2020) (Num 0) (JStr "")
                          (JStr "gasoline") false (JStr "auto")) = [] /\
  serve_all Sample.hash Sample.compare
            [(POST_add, mkRequest b "" 40); (GET_data, mkRequest Body.empty "" 41)]
            Sample.as_alice =
    ([Json 400 (ErrorBody "Model, year, and MPG are required fields.");
      Json 200 (CarsBody [Sample.civic; Sample.beetle])],
     Sample.as_alice) /\
  serve Sample.hash Sample.compare POST_cars (mkRequest b "" 40) Sample.as_alice =
    (Redirect "/dashboard",
     with_car Sample.as_alice
       (Car.mk 6%N (Some 1%N) (Some "Civic") 2020 0 (Some "") (Some "gasoline")
               false (Some "auto") 40 40)).
Proof. repeat split; reflexivity. Qed.

(** C5 at an update the code lets through.  Alice updates her own car with
    a fuel and a transmission outside the enumerations: POST /modify and
    POST /cars/:id/update both write the values, which the validators of
    [carSchema] refuse, into the stored document. *)
Theorem update_stores_values_outside_the_enumerations :
  let b := Body.with_id (Sample.car_body "Civic" 2020 35 "rocket" "warp")
                        (JStr Sample.id_civic) in
  let changed :=
    Car.mk 3%N (Some 1%N) (Some "Civic") 2020 35 (Some "") (Some "rocket")
           false (Some "warp") 10 40 in
  enum_ok enum_fuel (Value "rocket") = false /\
  enum_ok enum_transmission (Value "warp") = false /\
  serve Sample.hash Sample.compare POST_modify (mkRequest b "" 40) Sample.as_alice =
    (Json 200 (CarsBody [changed; Sample.beetle]),
     mkWorld (Session.mk (Some 1%N) None)
             (mkDb (users Sample.store) [changed; Sample.leaf; Sample.beetle] 6%N)) /\
  serve Sample.hash Sample.compare POST_cars_id_update
        (mkRequest b Sample.id_civic 40) Sample.as_alice =
    (Redirect "/dashboard",
     mkWorld (Session.mk (Some 1%N) None)
             (mkDb (users Sample.store) [changed; Sample.leaf; Sample.beetle] 6%N)).
Proof. repeat split; reflexivity. Qed.

(** C6 at validation errors answered as server faults.  A negative mpg, a
    year that is not a number and a model of white space only pass the
    checks of POST /add, fail the validators of [carSchema] inside
    [Car.create], and are answered with status 500; nothing is stored. *)
Theorem add_validation_errors_answered_500 :
  let negative_mpg := Sample.car_body "Civic" 2020 (-5) "gasoline" "auto" in
  let year_text :=
    Body.mk JUndefined JUndefined JUndefined (JStr "Civic") (JStr "abc")
            (JNum (Num 35)) JUndefined (JStr "gasoline") JUndefined (JStr "auto") in
  let blank_model := Sample.car_body "   " 2020 35 "gasoline" "auto" in
  serve Sample.hash Sample.compare POST_add (mkRequest negative_mpg "" 40)
        Sample.as_alice =
    (Json 500 (ErrorBody "Failed to add car."), Sample.as_alice) /\
  serve Sample.hash Sample.compare POST_add (mkRequest year_text "" 40)
        Sample.as_alice =
    (Json 500 (ErrorBody "Failed to add car."), Sample.as_alice) /\
  serve Sample.hash Sample.compare POST_add (mkRequest blank_model "" 40)
        Sample.as_alice =
    (Json 500 (ErrorBody "Failed to add car."), Sample.as_alice).
Proof. repeat split; reflexivity. Qed.

(** C8 at a user with two cars.  A client adds a Civic at time 10 and a
    Beetle at time 30.  GET /dashboard lists the Beetle first; GET /data and
    GET /api/me list the Civic first, the older one.  The projection of the
    user in GET /api/me has no password. *)
Theorem json_listings_have_the_oldest_first :
  let civic :=
    Car.mk 2%N (Some 1%N) (Some "Civic") 2020 35 (Some "") (Some "gasoline")
           false (Some "auto") 10 10 in
  let beetle :=
    Car.mk 3%N (Some 1%N) (Some "Beetle") 1967 25 (Some "") (Some "gasoline")
           false (Some "manual") 30 30 in
  let demo := User.mk 1%N "demo" (Sample.hash "demo") in
  fst (serve_all Sample.hash Sample.compare
         [(POST_add, mkRequest (Sample.car_body "Civic" 2020 35 "gasoline" "auto") "" 10);
          (POST_add, mkRequest (Sample.car_body "Beetle" 1967 25 "gasoline" "manual") "" 30);
          (GET_dashboard, mkRequest Body.empty "" 40);
          (GET_data, mkRequest Body.empty "" 41);
          (GET_api_me, mkRequest Body.empty "" 42)]
         (mkWorld Session.empty Sample.empty_store)) =
    [Redirect "/dashboard";
     Redirect "/dashboard";
     RenderDashboard "Dashboard • Car Tracker" None demo [beetle; civic];
     Json 200 (CarsBody [civic; beetle]);
     Json 200 (MeBody (Some (User.mkProjection 1%N "demo")) [civic; beetle])] /\
  (Car.createdAt civic < Car.createdAt beetle)%nat.
Proof. split; [reflexivity | cbn; lia]. Qed.

(* ===================================================================== *)
(** * Further properties of the handlers *)
(* ===================================================================== *)

(** ** A small logic of what computations preserve *)

Section Preserves.

Variable P : world -> Prop.

Lemma preserves_ret {A} (a : A) : preserves P (ret a).
Proof. intros w H. exact H. Qed.

Lemma preserves_throw {A} (e : error) : preserves P (@throw A e).
Proof. intros w H. exact H. Qed.

Lemma preserves_eval {A} (r : result A) : preserves P (eval r).
Proof. intros w H. exact H. Qed.

Lemma preserves_bind {A B} (c : M A) (k : A -> M B) :
  preserves P c -> (forall a, preserves P (k a)) -> preserves P (bind c k).
Proof.
  intros Hc Hk w H. unfold bind. specialize (Hc w H).
  destruct (c w) as [[a|e] w1]; cbn in *; [apply Hk|]; exact Hc.
Qed.

Lemma preserves_try_catch {A} (c : M A) (h : error -> M A) :
  preserves P c -> (forall e, preserves P (h e)) -> preserves P (try_catch c h).
Proof.
  intros Hc Hh w H. unfold try_catch. specialize (Hc w H).
  destruct (c w) as [[a|e] w1]; cbn in *; [|apply Hh]; exact Hc.
Qed.

Lemma preserves_await {A} (op : db -> result A * db) :
  (forall s d, P (mkWorld s d) -> P (mkWorld s (snd (op d)))) ->
  preserves P (await op).
Proof.
  intros Hop [s d] H. unfold await. cbn. specialize (Hop s d H).
  destruct (op d) as [r d']. exact Hop.
Qed.

Lemma preserves_get_userId : preserves P get_userId.
Proof. intros w H. exact H. Qed.

Lemma preserves_get_flash : preserves P get_flash.
Proof. intros w H. exact H. Qed.

End Preserves.

Ltac preserves_step :=
  match goal with
  | H : preserves _ ?c |- preserves _ ?c => exact H
  | |- preserves _ (bind _ _) => apply preserves_bind; [|intro]
  | |- preserves _ (ret _) => apply preserves_ret
  | |- preserves _ (throw _) => apply preserves_throw
  | |- preserves _ (eval _) => apply preserves_eval
  | |- preserves _ get_userId => apply preserves_get_userId
  | |- preserves _ get_flash => apply preserves_get_flash
  | |- preserves _ (try_catch _ _) => apply preserves_try_catch; [|intro]
  | |- preserves _ (if ?b then _ else _) => destruct b
  | |- preserves _ (match ?x with Some _ => _ | None => _ end) => destruct x
  end.

Lemma serve_after_flash (bcrypt_hash : string -> string)
      (bcrypt_compare : string -> string -> bool)
      (P : world -> Prop) (r : route) (req : request) (w : world) :
  P (consume_flash w) ->
  (forall fl, preserves P
     (match r with
      | GET_root => get_root fl
      | POST_login => post_login bcrypt_hash bcrypt_compare req
      | POST_logout => post_logout
      | GET_dashboard => requireAuth (get_dashboard fl)
      | POST_cars => requireAuth (post_cars req)
      | POST_cars_id_update => requireAuth (post_cars_id_update req)
      | POST_cars_id_delete => requireAuth (post_cars_id_delete req)
      | GET_api_me => requireAuth get_api_me
      | GET_data => ensureLoggedInOrDemo bcrypt_hash get_data
      | POST_add => ensureLoggedInOrDemo bcrypt_hash (post_add req)
      | POST_modify => ensureLoggedInOrDemo bcrypt_hash (post_modify req)
      | POST_delete => ensureLoggedInOrDemo bcrypt_hash (post_delete req)
      | Other => ret (Send 404 "Not found")
      end)) ->
  P (snd (serve bcrypt_hash bcrypt_compare r req w)).
Proof.
  intros H0 Hr. unfold serve, app, flash_middleware.
  unfold bind at 1. unfold bind at 1. unfold get_flash at 1. cbn beta iota.
  unfold bind at 1. unfold delete_flash at 1. cbn beta iota.
  unfold ret at 1. cbn beta iota.
  specialize (Hr (Session.flash (session w)) _ H0).
  fold (consume_flash w).
  match goal with |- P (snd (match ?x with _ => _ end)) =>
    destruct x as [[res|e] w'] end; exact Hr.
Qed.

Section Flash.

Variable bcrypt_hash : string -> string.
Variable bcrypt_compare : string -> string -> bool.

Ltac quiet_step :=
  first
    [ preserves_step
    | apply preserves_await; intros s d H; exact H
    | solve [intros [[u f] d] H; cbn in *; first [exact H | reflexivity]] ].

(** X1. A flash message lives for one request: whatever the session held,
    after a request to any route but POST /login, the one handler that
    sets messages, the session holds none. *)
Theorem flash_is_consumed :
  forall (r : route) (req : request) (w : world),
    r <> POST_login ->
    Session.flash (session (snd (serve bcrypt_hash bcrypt_compare r req w))) = None.
Proof.
  intros r req w Hr.
  apply (serve_after_flash bcrypt_hash bcrypt_compare
           (fun w => Session.flash (session w) = None)); [reflexivity|].
  intros fl.
  destruct r; try contradiction;
    unfold requireAuth, ensureLoggedInOrDemo, get_root, post_logout, get_dashboard,
      post_cars, post_cars_id_update, post_cars_id_delete, get_api_me, get_data,
      post_add, post_modify, post_delete;
    repeat quiet_step.
Qed.

End Flash.

Lemma flash_is_consumed_witness :
  GET_dashboard <> POST_login /\
  Session.flash
    (session (snd (serve Sample.hash Sample.compare GET_dashboard
                         (Sample.at_time 40 Body.empty)
                         (mkWorld (Session.mk (Some 1%N) (Some "Incorrect password."))
                                  Sample.store)))) = None.
Proof.
  assert (H : GET_dashboard <> POST_login) by discriminate.
  split; [exact H|].
  exact (flash_is_consumed Sample.hash Sample.compare GET_dashboard
           (Sample.at_time 40 Body.empty)
           (mkWorld (Session.mk (Some 1%N) (Some "Incorrect password."))
                    Sample.store) H).
Defined.

Section Accounts.

Variable bcrypt_hash : string -> string.
Variable bcrypt_compare : string -> string -> bool.

Lemma Car_create_users p t d : users (snd (Car_create p t d)) = users d.
Proof.
  unfold Car_create. destruct (Car_validate p); [|reflexivity].
  destruct (castNumber (Fields.year p)); [|reflexivity].
  destruct (castNumber (Fields.mpg p)); reflexivity.
Qed.

Lemma Car_updateOne_users id o u t d : users (snd (Car_updateOne id o u t d)) = users d.
Proof.
  unfold Car_updateOne. destruct (castObjectId id); [|reflexivity].
  destruct (castNumber (Fields.year u)), (castNumber (Fields.mpg u)); reflexivity.
Qed.

Lemma Car_deleteOne_users id o d : users (snd (Car_deleteOne id o d)) = users d.
Proof. unfold Car_deleteOne. destruct (castObjectId id); reflexivity. Qed.

Lemma User_create_users name h d :
  exists l, users (snd (User_create name h d)) = (users d ++ l)%list.
Proof.
  unfold User_create. destruct (castString name); cbn.
  - exists []. symmetry. apply app_nil_r.
  - exists []. symmetry. apply app_nil_r.
  - eexists. reflexivity.
Qed.

Lemma grows_same (U : list User.t) (s : Session.t) (d d' : db) :
  users d' = users d ->
  (exists l, users (database (mkWorld s d)) = (U ++ l)%list) ->
  exists l, users (database (mkWorld s d')) = (U ++ l)%list.
Proof. cbn. intros -> H. exact H. Qed.

Ltac grows_step U :=
  first
    [ preserves_step
    | let s := fresh "s" in
      let d := fresh "d" in
      let HU := fresh "HU" in
      apply preserves_await; intros s d HU;
      first
        [ apply (grows_same U s d); [|exact HU];
          first [ apply Car_create_users | apply Car_updateOne_users
                | apply Car_deleteOne_users
                | rewrite User_findOne_db; reflexivity
                | reflexivity ]
        | match goal with
          | |- context [User_create ?n ?h d] =>
              let l := fresh "l" in
              let l' := fresh "l" in
              let E := fresh "E" in
              let E' := fresh "E" in
              destruct HU as [l E];
              destruct (User_create_users n h d) as [l' E'];
              exists (l ++ l')%list; cbn [database] in *;
              rewrite E', E; symmetry; apply app_assoc
          end ]
    | let HU := fresh "HU" in
      solve [intros [[? ?] ?] HU; exact HU] ].

Lemma serve_grows_users (U : list User.t) (r : route) (req : request) (w : world) :
  (exists l, users (database w) = (U ++ l)%list) ->
  exists l, users (database (snd (serve bcrypt_hash bcrypt_compare r req w))) = (U ++ l)%list.
Proof.
  intros H.
  apply (serve_after_flash bcrypt_hash bcrypt_compare
           (fun w => exists l, users (database w) = (U ++ l)%list)); [exact H|].
  intros fl.
  destruct r;
    unfold requireAuth, ensureLoggedInOrDemo, get_root, post_login, post_logout,
      get_dashboard, post_cars, post_cars_id_update, post_cars_id_delete,
      get_api_me, get_data, post_add, post_modify, post_delete;
    repeat grows_step U.
Qed.

Lemma serve_all_grows_users (U : list User.t) (rs : list (route * request)) :
  forall (w : world),
    (exists l, users (database w) = (U ++ l)%list) ->
    exists l,
      users (database (snd (serve_all bcrypt_hash bcrypt_compare rs w))) = (U ++ l)%list.
Proof.
  induction rs as [|[r req] rest IH]; intros w H; cbn; [exact H|].
  pose proof (serve_grows_users U r req w H) as H1.
  destruct (serve bcrypt_hash bcrypt_compare r req w) as [res w1]. cbn in H1.
  specialize (IH w1 H1).
  destruct (serve_all bcrypt_hash bcrypt_compare rest w1) as [out w2]. exact IH.
Qed.

(** X2. Accounts are never removed nor changed: after any sequence of
    requests the users collection is what it was, with the accounts created
    meanwhile appended. *)
Theorem accounts_are_only_appended :
  forall (rs : list (route * request)) (w : world),
    exists added,
      users (database (snd (serve_all bcrypt_hash bcrypt_compare rs w))) =
      (users (database w) ++ added)%list.
Proof.
  intros rs w. apply serve_all_grows_users.
  exists []. symmetry. apply app_nil_r.
Qed.

End Accounts.

Section Frames.

Variable bcrypt_hash : string -> string.
Variable bcrypt_compare : string -> string -> bool.

Ltac same_cars_step :=
  first
    [ preserves_step
    | let s := fresh "s" in
      let d := fresh "d" in
      let HL := fresh "HL" in
      apply preserves_await; intros s d HL; cbn [database] in *;
      first [ rewrite User_create_cars; exact HL
            | rewrite User_findOne_db; exact HL
            | exact HL ]
    | let HL := fresh "HL" in
      solve [intros [[? ?] ?] HL; exact HL] ].

(** A route that calls none of [Car.create], [Car.updateOne],
    [Car.deleteOne] leaves the cars collection as it is. *)
Lemma serve_keeps_cars (r : route) (req : request) (w : world) :
  writes_cars r = false ->
  cars (database (snd (serve bcrypt_hash bcrypt_compare r req w))) = cars (database w).
Proof.
  intros Hr.
  apply (serve_after_flash bcrypt_hash bcrypt_compare
           (fun w' => cars (database w') = cars (database w))); [reflexivity|].
  intros fl.
  destruct r; try discriminate Hr;
    unfold requireAuth, ensureLoggedInOrDemo, get_root, post_login, post_logout,
      get_dashboard, get_api_me, get_data;
    repeat same_cars_step.
Qed.

(** X3. Logging in and out, rendering the pages, listing, and requests to
    unknown paths never change the cars collection, however many of them
    are served. *)
Theorem reading_routes_keep_the_cars :
  forall (rs : list (route * request)) (w : world),
    forallb (fun x => negb (writes_cars (fst x))) rs = true ->
    cars (database (snd (serve_all bcrypt_hash bcrypt_compare rs w))) = cars (database w).
Proof.
  induction rs as [|[r req] rest IH]; intros w Hrs; cbn; [reflexivity|].
  cbn in Hrs. apply andb_true_iff in Hrs. destruct Hrs as [Hr Hrest].
  apply negb_true_iff in Hr.
  pose proof (serve_keeps_cars r req w Hr) as H1.
  destruct (serve bcrypt_hash bcrypt_compare r req w) as [res w1]. cbn in H1.
  specialize (IH w1 Hrest).
  destruct (serve_all bcrypt_hash bcrypt_compare rest w1) as [out w2]. cbn in *.
  congruence.
Qed.

Lemma filter_update_first {A} (q p : A -> bool) (f : A -> A) (l : list A) :
  (forall x, p x = true -> q x = false /\ q (f x) = false) ->
  filter q (update_first p f l) = filter q l.
Proof.
  intros H. induction l as [|x r IH]; cbn; [reflexivity|].
  destruct (p x) eqn:E; cbn.
  - destruct (H x E) as [-> ->]. reflexivity.
  - rewrite IH. reflexivity.
Qed.

Lemma filter_remove_first {A} (q p : A -> bool) (l : list A) :
  (forall x, p x = true -> q x = false) ->
  filter q (remove_first p l) = filter q l.
Proof.
  intros H. induction l as [|x r IH]; cbn; [reflexivity|].
  destruct (p x) eqn:E; cbn.
  - rewrite (H x E). reflexivity.
  - rewrite IH. reflexivity.
Qed.

Lemma matches_not_foreign i a x :
  matches i (Some a) x = true -> negb (oid_eqb (Car.owner x) (Some a)) = false.
Proof.
  unfold matches. intros H. apply andb_true_iff in H. destruct H as [_ ->]. reflexivity.
Qed.

Lemma Car_updateOne_foreign id a u t d :
  foreign_cars a (snd (Car_updateOne id (Some a) u t d)) = foreign_cars a d.
Proof.
  unfold Car_updateOne. destruct (castObjectId id); [|reflexivity].
  destruct (castNumber (Fields.year u)), (castNumber (Fields.mpg u));
    try reflexivity.
  unfold foreign_cars. cbn. apply filter_update_first.
  intros x Hx. split; exact (matches_not_foreign _ _ _ Hx).
Qed.

Lemma Car_deleteOne_foreign id a d :
  foreign_cars a (snd (Car_deleteOne id (Some a) d)) = foreign_cars a d.
Proof.
  unfold Car_deleteOne. destruct (castObjectId id); [|reflexivity].
  unfold foreign_cars. cbn. apply filter_remove_first.
  intros x Hx. exact (matches_not_foreign _ _ _ Hx).
Qed.

Lemma Car_create_foreign p a t d :
  Fields.owner p = Some a ->
  foreign_cars a (snd (Car_create p t d)) = foreign_cars a d.
Proof.
  intros Ho. unfold Car_create. destruct (Car_validate p); [|reflexivity].
  destruct (castNumber (Fields.year p)); [|reflexivity].
  destruct (castNumber (Fields.mpg p)); [|reflexivity].
  unfold foreign_cars. cbn. rewrite filter_app. cbn. rewrite Ho.
  rewrite (proj2 (oid_eqb_eq (Some a) (Some a)) eq_refl). cbn. apply app_nil_r.
Qed.

Ltac foreign_op :=
  match goal with
  | |- context [Car_updateOne ?i (Some ?a) ?u ?t ?d] =>
      let H := fresh "H" in
      pose proof (Car_updateOne_foreign i a u t d) as H;
      destruct (Car_updateOne i (Some a) u t d) as [[[]|?] ?]; cbn in *; exact H
  | |- context [Car_deleteOne ?i (Some ?a) ?d] =>
      let H := fresh "H" in
      pose proof (Car_deleteOne_foreign i a d) as H;
      destruct (Car_deleteOne i (Some a) d) as [[[]|?] ?]; cbn in *; exact H
  | |- context [Car_create ?p ?t ?d] =>
      let H := fresh "H" in
      pose proof (Car_create_foreign p _ t d eq_refl) as H;
      destruct (Car_create p t d) as [[?|?] ?]; cbn in *; exact H
  end.

(** X4. A request never touches the cars of anybody but the user in its
    session: on every route, whatever the body and the [:id], the cars that
    are not owned by that user are the same afterwards, in the same order
    and with the same contents. *)
Theorem other_owners_cars_are_untouched :
  forall (r : route) (req : request) (w : world) (a : ObjectId),
    Session.userId (session w) = Some a ->
    foreign_cars a (database (snd (serve bcrypt_hash bcrypt_compare r req w))) =
    foreign_cars a (database w).
Proof.
  intros r req [[uid fl] d] a Ha. cbn in Ha. subst uid.
  destruct (writes_cars r) eqn:Hr.
  - destruct r; try discriminate Hr.
    + (* POST /cars *) run. foreign_op.
    + (* POST /cars/:id/update *) run. foreign_op.
    + (* POST /cars/:id/delete *) run. foreign_op.
    + (* POST /add *)
      rewrite (serve_gated bcrypt_hash bcrypt_compare POST_add (post_add req))
        by reflexivity.
      unfold attach_demo, consume_flash. cbn [session database Session.userId].
      unfold post_add.
      destruct (js_not (Body.model (body req)) || js_not (Body.year (body req))
                || js_not (Body.mpg (body req))); [reflexivity|].
      destruct (lt_const (Body.year (body req)) 1885); [reflexivity|].
      destruct (negb (includes allowedFuels (Body.fuel (body req)))); [reflexivity|].
      destruct (negb (includes allowedTransmissions (Body.transmission (body req))));
        [reflexivity|].
      run.
      destruct (call_trim (Body.model (body req))); [|reflexivity].
      destruct (optional_trim (Body.notes (body req))); [|reflexivity].
      destruct (call_trim (Body.fuel (body req))); [|reflexivity].
      destruct (call_trim (Body.transmission (body req))); [|reflexivity].
      cbn. foreign_op.
    + (* POST /modify *)
      run. destruct (js_not (Body.id (body req))); [reflexivity|]. cbn. foreign_op.
    + (* POST /delete *)
      run. destruct (js_not (Body.id (body req))); [reflexivity|]. cbn. foreign_op.
  - unfold foreign_cars. rewrite (serve_keeps_cars r req _ Hr). reflexivity.
Qed.

End Frames.

Section Demo.

Variable bcrypt_hash : string -> string.
Variable bcrypt_compare : string -> string -> bool.

Lemma find_none_all {A} (f : A -> bool) (l : list A) :
  find f l = None -> forall y, In y l -> f y = false.
Proof. intros H y Hy. exact (find_none f l H y Hy). Qed.

(** X5. The demo account is made once and shared: a request without a
    user in its session to GET /data leaves the session on an account named
    "demo" that is in the users collection, and every later request of that
    kind on the resulting database, from whatever session without a user,
    gets the same account and changes nothing in the database. *)
Theorem demo_account_is_shared :
  forall (req1 : request) (w : world),
    Session.userId (session w) = None ->
    exists demo,
      let w1 := snd (serve bcrypt_hash bcrypt_compare GET_data req1 w) in
      In demo (users (database w1)) /\
      User.username demo = "demo" /\
      Session.userId (session w1) = Some (User._id demo) /\
      forall (s2 : Session.t) (req2 : request),
        Session.userId s2 = None ->
        snd (serve bcrypt_hash bcrypt_compare GET_data req2 (mkWorld s2 (database w1))) =
        mkWorld (Session.mk (Some (User._id demo)) None) (database w1).
Proof.
  intros req1 [[uid fl] d] Hw. cbn in Hw. subst uid.
  destruct (find (fun u => (User.username u =? "demo")%string) (users d))
    as [demo|] eqn:E.
  - exists demo. run. unfold User_findOne. cbn. rewrite E. cbn.
    destruct (find_some _ _ E) as [Hin Hname]. apply String.eqb_eq in Hname.
    repeat split; try assumption.
    intros [u2 f2] req2 H2. cbn in H2. subst u2.
    run. unfold User_findOne. cbn. rewrite E. reflexivity.
  - exists (User.mk (nextId d) "demo" (bcrypt_hash "demo")).
    run. unfold User_findOne. cbn. rewrite E. cbn.
    repeat split.
    + apply in_or_app. right. left. reflexivity.
    + intros [u2 f2] req2 H2. cbn in H2. subst u2.
      run. unfold User_findOne. cbn.
      rewrite (find_snoc (fun u => (User.username u =? "demo")%string) (users d)
                 (User.mk (nextId d) "demo" (bcrypt_hash "demo"))
                 (find_none_all _ _ E) eq_refl).
      reflexivity.
Qed.

Lemma find_name_none (name : string) (l : list User.t) :
  find (fun u => (User.username u =? name)%string) l = None ->
  ~ In name (map User.username l).
Proof.
  intros H Hin. apply in_map_iff in Hin. destruct Hin as (u & Hu & Hin).
  pose proof (find_none _ _ H u Hin) as Hf. cbn in Hf.
  rewrite Hu, String.eqb_refl in Hf. discriminate.
Qed.

Lemma NoDup_snoc {A} (l : list A) (x : A) :
  NoDup l -> ~ In x l -> NoDup (l ++ [x]).
Proof.
  intros Hl Hx. apply NoDup_app; [exact Hl|repeat constructor; intros []|].
  intros y Hy [<-|[]]. exact (Hx Hy).
Qed.

Lemma attach_demo_unique (w : world) :
  NoDup (usernames (database w)) ->
  NoDup (usernames (database (attach_demo bcrypt_hash w))).
Proof.
  destruct w as [[uid fl] d]. unfold attach_demo, usernames. cbn.
  destruct uid; [auto|].
  destruct (find _ (users d)) eqn:E; cbn; [auto|].
  intros H. rewrite map_app. cbn. apply NoDup_snoc; [exact H|].
  exact (find_name_none _ _ E).
Qed.

Lemma post_login_unique (req : request) :
  preserves (fun w => NoDup (usernames (database w)))
            (post_login bcrypt_hash bcrypt_compare req).
Proof.
  intros [[uid fl] d] H. cbn in H. unfold post_login.
  destruct (js_not (Body.username (body req)) || js_not (Body.password (body req)));
    [exact H|].
  run. unfold User_findOne, User_create.
  destruct (castString (Body.username (body req))) as [| |name] eqn:Ec; cbn.
  - destruct (bcrypt_hash_js bcrypt_hash (Body.password (body req))); exact H.
  - destruct (bcrypt_hash_js bcrypt_hash (Body.password (body req))); exact H.
  - destruct (find _ (users d)) as [existing|] eqn:E; cbn.
    + destruct (bcrypt_compare_js bcrypt_compare (Body.password (body req))
                                  (User.password existing)) as [[|]|]; exact H.
    + destruct (bcrypt_hash_js bcrypt_hash (Body.password (body req))); cbn;
        [|exact H].
      unfold usernames. cbn. rewrite map_app. cbn.
      apply NoDup_snoc; [exact H|]. exact (find_name_none _ _ E).
Qed.

Ltac same_users_step :=
  first
    [ preserves_step
    | let s := fresh "s" in
      let d := fresh "d" in
      let HL := fresh "HL" in
      apply preserves_await; intros s d HL; unfold usernames in *;
      cbn [database] in *;
      first [ rewrite Car_create_users; exact HL
            | rewrite Car_updateOne_users; exact HL
            | rewrite Car_deleteOne_users; exact HL
            | exact HL ]
    | let HL := fresh "HL" in
      solve [intros [[? ?] ?] HL; exact HL] ].

Lemma serve_keeps_unique (r : route) (req : request) (w : world) :
  NoDup (usernames (database w)) ->
  NoDup (usernames (database (snd (serve bcrypt_hash bcrypt_compare r req w)))).
Proof.
  intros H.
  assert (Hgate : forall next,
             preserves (fun w => NoDup (usernames (database w))) next ->
             preserves (fun w => NoDup (usernames (database w)))
                       (ensureLoggedInOrDemo bcrypt_hash next)).
  { intros next Hn w' Hw'. rewrite ensureLoggedInOrDemo_run.
    apply Hn. apply attach_demo_unique. exact Hw'. }
  apply (serve_after_flash bcrypt_hash bcrypt_compare
           (fun w => NoDup (usernames (database w)))); [exact H|].
  intros fl.
  destruct r; try apply post_login_unique; try apply Hgate;
    unfold requireAuth, get_root, post_logout, get_dashboard, post_cars,
      post_cars_id_update, post_cars_id_delete, get_api_me, get_data,
      post_add, post_modify, post_delete;
    repeat same_users_step.
Qed.

(** X6. No two accounts share a name: the names of the users collection
    being pairwise distinct, they are so after any sequence of requests,
    the login creating an account only under a name that no account
    carries, and the demo gate likewise. *)
Theorem usernames_stay_unique :
  forall (rs : list (route * request)) (w : world),
    NoDup (usernames (database w)) ->
    NoDup (usernames (database (snd (serve_all bcrypt_hash bcrypt_compare rs w)))).
Proof.
  induction rs as [|[r req] rest IH]; intros w H; cbn; [exact H|].
  pose proof (serve_keeps_unique r req w H) as H1.
  destruct (serve bcrypt_hash bcrypt_compare r req w) as [res w1]. cbn in H1.
  specialize (IH w1 H1).
  destruct (serve_all bcrypt_hash bcrypt_compare rest w1) as [out w2]. exact IH.
Qed.

End Demo.

Section Creation.

Variable bcrypt_hash : string -> string.
Variable bcrypt_compare : string -> string -> bool.

Lemma enum_ok_stored (values : list string) (v : jsval) (default f : string) :
  enum_ok values (castString v) = true ->
  In default values ->
  with_default (castString v) default = Some f ->
  In f values.
Proof.
  destruct (castString v) as [| |s]; cbn; intros Hok Hd Hs; inversion Hs; subst.
  - exact Hd.
  - apply existsb_exists in Hok. destruct Hok as (x & Hx & Hxs).
    apply String.eqb_eq in Hxs. subst. exact Hx.
Qed.

(** [Car.create] either inserts one document that passes the validators
    of the schema, or throws a validation error and inserts nothing. *)
Lemma Car_create_outcome (p : Fields.t) (t : nat) (d : db) :
  (exists c,
      Car_create p t d =
        (Ok c, mkDb (users d) (cars d ++ [c]) (N.succ (nextId d))) /\
      schema_valid c /\ Car.owner c = Fields.owner p /\
      Car._id c = nextId d /\ Car.createdAt c = t) \/
  (exists paths, Car_create p t d = (Throw (ValidationError paths), d)).
Proof.
  unfold Car_create.
  destruct (Car_validate p) as [|path paths] eqn:Ev; [|right; eexists; reflexivity].
  unfold Car_validate, cast_failures, min_fails in Ev.
  destruct (castNumber (Fields.year p)) as [y|]; [|discriminate Ev].
  destruct (castNumber (Fields.mpg p)) as [g|]; [|discriminate Ev].
  cbn [app] in Ev.
  destruct (required_ok (castString (Fields.model p))) eqn:Rm; [|discriminate Ev].
  destruct (y <? 1885) eqn:Ry; [discriminate Ev|].
  destruct (g <? 0) eqn:Rg; [discriminate Ev|].
  destruct (enum_ok enum_fuel (castString (Fields.fuel p))) eqn:Rf; [|discriminate Ev].
  destruct (enum_ok enum_transmission (castString (Fields.transmission p))) eqn:Rt;
    [|discriminate Ev].
  left. eexists. split; [reflexivity|].
  repeat split; cbn.
  - destruct (castString (Fields.model p)) as [| |m]; try discriminate Rm.
    exists m. split; [reflexivity|]. cbn in Rm.
    intros ->. discriminate Rm.
  - apply Z.ltb_ge. exact Ry.
  - apply Z.ltb_ge. exact Rg.
  - intros f Hf. apply (enum_ok_stored enum_fuel (Fields.fuel p) "gasoline" f Rf);
      [cbn; auto | exact Hf].
  - intros tr Htr.
    apply (enum_ok_stored enum_transmission (Fields.transmission p) "auto" tr Rt);
      [cbn; auto | exact Htr].
Qed.

Ltac create_op :=
  match goal with
  | |- context [Car_create ?p ?t ?d] =>
      let c := fresh "c" in
      let E := fresh "E" in
      let V := fresh "V" in
      let paths := fresh "paths" in
      let Ho := fresh "Ho" in
      let Ht := fresh "Ht" in
      destruct (Car_create_outcome p t d)
        as [(c & E & V & Ho & _ & Ht) | (paths & E)];
      rewrite E; cbn in *;
      [ left; split; [reflexivity|]; exists c;
        split; [reflexivity|]; split; [exact V|]; split; [exact Ho | exact Ht]
      | right; split; [discriminate | reflexivity] ]
  end.

(** X7. POST /cars and POST /add store a car only if it passes the
    validators of the schema: each of them either answers with the redirect
    to the dashboard and has appended exactly one car, which has a model
    that is not empty, a year from 1885 on, an mpg that is not negative, a
    fuel and a transmission out of the enumerations, the session's user as
    owner and the time of the request as creation time; or it answers
    otherwise and the cars are as they were. *)
Theorem creating_routes_store_valid_cars :
  forall (req : request) (w : world),
    created_or_nothing req w (serve bcrypt_hash bcrypt_compare POST_cars req w) /\
    created_or_nothing req w (serve bcrypt_hash bcrypt_compare POST_add req w).
Proof.
  intros req w. unfold created_or_nothing. split.
  - destruct w as [[[a|] fl] d]; run.
    + create_op.
    + right. split; [discriminate | reflexivity].
  - rewrite (serve_gated bcrypt_hash bcrypt_compare POST_add (post_add req))
      by reflexivity.
    assert (Hc : cars (database (attach_demo bcrypt_hash (consume_flash w))) =
                 cars (database w)).
    { rewrite attach_demo_cars. reflexivity. }
    rewrite <- Hc. clear Hc.
    generalize (attach_demo bcrypt_hash (consume_flash w)). intros [[uid fl] d].
    unfold post_add.
    destruct (js_not (Body.model (body req)) || js_not (Body.year (body req))
              || js_not (Body.mpg (body req)));
      [right; split; [discriminate | reflexivity]|].
    destruct (lt_const (Body.year (body req)) 1885);
      [right; split; [discriminate | reflexivity]|].
    destruct (negb (includes allowedFuels (Body.fuel (body req))));
      [right; split; [discriminate | reflexivity]|].
    destruct (negb (includes allowedTransmissions (Body.transmission (body req))));
      [right; split; [discriminate | reflexivity]|].
    run.
    destruct (call_trim (Body.model (body req)));
      [|right; split; [discriminate | reflexivity]].
    destruct (optional_trim (Body.notes (body req)));
      [|right; split; [discriminate | reflexivity]].
    destruct (call_trim (Body.fuel (body req)));
      [|right; split; [discriminate | reflexivity]].
    destruct (call_trim (Body.transmission (body req)));
      [|right; split; [discriminate | reflexivity]].
    cbn. create_op.
Qed.

End Creation.

Section OwnCars.

Variable bcrypt_hash : string -> string.
Variable bcrypt_compare : string -> string -> bool.

Lemma filter_all {A} (q : A -> bool) (l : list A) :
  (forall x, In x l -> q x = true) -> filter q l = l.
Proof.
  induction l as [|x r IH]; intros H; cbn; [reflexivity|].
  rewrite (H x (or_introl eq_refl)). f_equal. apply IH.
  intros y Hy. apply H. right. exact Hy.
Qed.

Lemma other_ids (i : ObjectId) (l : list Car.t) :
  ~ In i (map Car._id l) -> forall x, In x l -> negb (Car._id x =? i)%N = true.
Proof.
  intros Hi x Hx. apply negb_true_iff. apply N.eqb_neq. intros E.
  apply Hi. rewrite <- E. apply in_map. exact Hx.
Qed.

(** Ids being unique, the filter of one's own car removes that document
    and no other. *)
Lemma remove_first_unique (l : list Car.t) (c : Car.t) :
  NoDup (map Car._id l) -> In c l ->
  remove_first (matches (Car._id c) (Car.owner c)) l = without_id (Car._id c) l.
Proof.
  unfold without_id.
  induction l as [|x r IH]; cbn; intros Hnd Hc; [contradiction|].
  inversion Hnd as [|? ? Hx Hr]; subst.
  destruct (matches (Car._id c) (Car.owner c) x) eqn:E.
  - apply matches_spec in E. destruct E as [Eid _].
    rewrite Eid, N.eqb_refl. cbn. symmetry. apply filter_all.
    apply other_ids. rewrite <- Eid. exact Hx.
  - destruct Hc as [->|Hc].
    + exfalso. rewrite (proj2 (matches_spec _ _ c) (conj eq_refl eq_refl)) in E.
      discriminate E.
    + assert (Hne : (Car._id x =? Car._id c)%N = false).
      { apply N.eqb_neq. intros Eid. apply Hx. rewrite Eid. apply in_map. exact Hc. }
      rewrite Hne. cbn. f_equal. apply IH; assumption.
Qed.

Lemma map_other_ids (i : ObjectId) (c' : Car.t) (l : list Car.t) :
  ~ In i (map Car._id l) -> replaced i c' l = l.
Proof.
  unfold replaced. intros Hi. induction l as [|x r IH]; cbn; [reflexivity|].
  cbn in Hi. destruct (N.eqb_spec (Car._id x) i) as [E|E].
  - exfalso. apply Hi. left. exact E.
  - f_equal. apply IH. intros H. apply Hi. right. exact H.
Qed.

(** Ids being unique, an update under the filter of one's own car rewrites
    that document and no other. *)
Lemma update_first_unique (f : Car.t -> Car.t) (l : list Car.t) (c : Car.t) :
  NoDup (map Car._id l) -> In c l ->
  update_first (matches (Car._id c) (Car.owner c)) f l = replaced (Car._id c) (f c) l.
Proof.
  induction l as [|x r IH]; cbn; intros Hnd Hc; [contradiction|].
  inversion Hnd as [|? ? Hx Hr]; subst.
  destruct (matches (Car._id c) (Car.owner c) x) eqn:E.
  - apply matches_spec in E. destruct E as [Eid Eo].
    assert (x = c).
    { refine (NoDup_map_inj Car._id (x :: r) x c Hnd (or_introl eq_refl) Hc Eid). }
    subst x. rewrite N.eqb_refl. f_equal. symmetry.
    apply map_other_ids. exact Hx.
  - destruct Hc as [->|Hc].
    + exfalso. rewrite (proj2 (matches_spec _ _ c) (conj eq_refl eq_refl)) in E.
      discriminate E.
    + assert (Hne : (Car._id x =? Car._id c)%N = false).
      { apply N.eqb_neq. intros Eid. apply Hx. rewrite Eid. apply in_map. exact Hc. }
      rewrite Hne. f_equal. apply IH; assumption.
Qed.

(** X8. Deleting one's own car removes exactly that car.  For a user [a]
    and a car [c] of theirs, ids being unique, POST /delete and
    POST /cars/:id/delete under the id of [c] leave the collection without
    [c] and otherwise as it was; the first answers with the list of the cars
    [a] has left, the second with the redirect to the dashboard. *)
Theorem delete_removes_exactly_the_named_car :
  forall (w : world) (a : ObjectId) (c : Car.t) (id : string)
         (b : Body.t) (p : string) (t : nat),
    NoDup (map Car._id (cars (database w))) ->
    Session.userId (session w) = Some a ->
    In c (cars (database w)) ->
    Car.owner c = Some a ->
    castObjectId (JStr id) = Some (Car._id c) ->
    let w' := with_cars (consume_flash w) (without_id (Car._id c) (cars (database w))) in
    serve bcrypt_hash bcrypt_compare POST_delete
          (mkRequest (Body.with_id b (JStr id)) p t) w =
      (Json 200 (CarsBody (cars_of w')), w') /\
    serve bcrypt_hash bcrypt_compare POST_cars_id_delete (mkRequest b id t) w =
      (Redirect "/dashboard", w').
Proof.
  intros [[uid fl] d] a c id b p t Hnd Ha Hc Ho Hid w'.
  cbn [session database Session.userId] in *. subst uid.
  pose proof (remove_first_unique (cars d) c Hnd Hc) as Hrm. rewrite Ho in Hrm.
  pose proof (castObjectId_truthy _ _ Hid) as Tid.
  split.
  - run. rewrite Tid. cbn. unfold Car_deleteOne. rewrite Hid. cbn.
    rewrite Hrm. reflexivity.
  - run. unfold Car_deleteOne. rewrite Hid. cbn. rewrite Hrm. reflexivity.
Qed.

(** X9. POST /modify on one's own car replaces the fields of exactly that
    car, as given: neither trimmed nor validated.  For a user [a] and a car
    [c] of theirs, ids being unique, a body that names [c] and gives model,
    notes, fuel and transmission as strings and year and mpg as numbers
    leaves [c] with these values, with its id, owner and creation time
    kept and the time of the request as time of update; every other car is
    as it was, and the answer is the list of the cars of [a]. *)
Theorem modify_replaces_exactly_the_named_car :
  forall (w : world) (a : ObjectId) (c : Car.t) (id : string)
         (u pw e : jsval) (m n f tr : string) (y g : Z) (p : string) (t : nat),
    NoDup (map Car._id (cars (database w))) ->
    Session.userId (session w) = Some a ->
    In c (cars (database w)) ->
    Car.owner c = Some a ->
    castObjectId (JStr id) = Some (Car._id c) ->
    let b := Body.mk u pw (JStr id) (JStr m) (JNum (Num y)) (JNum (Num g))
                     (JStr n) (JStr f) e (JStr tr) in
    let c' := Car.mk (Car._id c) (Car.owner c) (Some m) y g (Some n) (Some f)
                     (on_or_true e) (Some tr) (Car.createdAt c) t in
    let w' := with_cars (consume_flash w)
                        (replaced (Car._id c) c' (cars (database w))) in
    serve bcrypt_hash bcrypt_compare POST_modify (mkRequest b p t) w =
      (Json 200 (CarsBody (cars_of w')), w').
Proof.
  intros [[uid fl] d] a c id u pw e m n f tr y g p t Hnd Ha Hc Ho Hid b c' w'.
  cbn [session database Session.userId] in *. subst uid.
  pose proof (castObjectId_truthy _ _ Hid) as Tid.
  run. rewrite Tid. cbn. unfold Car_updateOne. rewrite Hid. cbn.
  match goal with |- context [update_first _ ?F (cars d)] =>
    pose proof (update_first_unique F (cars d) c Hnd Hc) as Hup end.
  rewrite Ho in Hup. rewrite Hup. reflexivity.
Qed.

Lemma remove_first_snoc {A} (p : A -> bool) (l : list A) (x : A) :
  (forall y, In y l -> p y = false) -> p x = true -> remove_first p (l ++ [x]) = l.
Proof.
  intros Hl Hx. induction l as [|y r IH]; cbn.
  - rewrite Hx. reflexivity.
  - rewrite (Hl y (or_introl eq_refl)). f_equal. apply IH.
    intros z Hz. apply Hl. right. exact Hz.
Qed.

(** X10. Adding a car and deleting it again gives back the collection.
    For a user [a], the ids of the cars being distinct and older than the
    next fresh one, a proper body with a positive mpg sent to POST /add and
    then POST /delete under the id the new car was given: the first is
    answered with the redirect, the second with the list of the cars [a]
    had before, and the cars collection is what it was. *)
Theorem add_then_delete_restores_the_cars :
  forall (w : world) (a : ObjectId) (b : Body.t) (p : string) (t : nat)
         (m : string) (y g : Z) (f tr : string)
         (id : string) (b2 : Body.t) (p2 : string) (t2 : nat),
    ids_fresh (database w) ->
    Session.userId (session w) = Some a ->
    car_fields b m y g f tr -> 1885 <= y -> 0 < g ->
    castObjectId (JStr id) = Some (nextId (database w)) ->
    let out := serve_all bcrypt_hash bcrypt_compare
                 [(POST_add, mkRequest b p t);
                  (POST_delete, mkRequest (Body.with_id b2 (JStr id)) p2 t2)] w in
    fst out = [Redirect "/dashboard"; Json 200 (CarsBody (cars_of w))] /\
    cars (database (snd out)) = cars (database w) /\
    users (database (snd out)) = users (database w) /\
    session (snd out) = session (consume_flash w).
Proof.
  intros [[uid fl] d] a b p t m y g f tr id b2 p2 t2 [Hnd Hlt] Ha Hb Hy Hg Hid.
  cbn [session database Session.userId] in *. subst uid.
  pose proof (castObjectId_truthy _ _ Hid) as Tid.
  cbn [serve_all]. rewrite serve_POST_add.
  unfold attach_demo, consume_flash. cbn [session database Session.userId Session.flash].
  rewrite (post_add_accepts b p t _ m y g f tr Hb Hy Hg).
  unfold with_car, added_car. cbn [session database Session.userId users cars nextId].
  run. rewrite Tid. cbn. unfold Car_deleteOne. rewrite Hid. cbn.
  rewrite remove_first_snoc.
  - repeat split.
  - intros x Hx. destruct (matches (nextId d) (Some a) x) eqn:E; [|reflexivity].
    apply matches_spec in E. destruct E as [E _].
    rewrite Forall_forall in Hlt. specialize (Hlt x Hx). cbn in Hlt. lia.
  - apply matches_spec. split; reflexivity.
Qed.

End OwnCars.

Section Forms.

Variable bcrypt_hash : string -> string.
Variable bcrypt_compare : string -> string -> bool.

(** X11. What POST /cars stores for a form that leaves notes, fuel and
    transmission out or empty.  For a logged-in user, a model that is a
    non-empty string, and a year and an mpg, given as numbers or as strings
    of decimal digits, that [Number] turns into an integer from 1885 on and
    an integer that is not negative: the car is stored with the model as
    given, the two numbers, empty notes, the fuel "gasoline" and the
    transmission "auto", and the answer is the redirect to the dashboard.
    The model is not trimmed, and an mpg of 0 is taken. *)
Theorem form_create_fills_the_defaults :
  forall (w : world) (a : ObjectId) (b : Body.t) (p : string) (t : nat)
         (m : string) (y g : Z),
    Session.userId (session w) = Some a ->
    Body.model b = JStr m -> m <> "" ->
    Number (Body.year b) = Num y -> 1885 <= y ->
    Number (Body.mpg b) = Num g -> 0 <= g ->
    truthy (Body.notes b) = false ->
    truthy (Body.fuel b) = false ->
    truthy (Body.transmission b) = false ->
    serve bcrypt_hash bcrypt_compare POST_cars (mkRequest b p t) w =
      (Redirect "/dashboard",
       with_car (consume_flash w)
         (Car.mk (nextId (database w)) (Some a) (Some m) y g (Some "")
                 (Some "gasoline") (form_checkbox (Body.isElectric b))
                 (Some "auto") t t)).
Proof.
  intros [[uid fl] d] a b p t m y g Ha Hm Hne Hy Hy1 Hg Hg0 Tn Tf Tt.
  cbn [session database Session.userId] in *. subst uid.
  unfold serve, app, flash_middleware, requireAuth, post_cars.
  repeat autounfold with run. cbn [body now session database Session.userId
    Session.flash fst snd].
  unfold js_or. rewrite Hm, Hy, Hg, Tn, Tf, Tt.
  unfold Car_create, Car_validate, cast_failures.
  cbn [Fields.model Fields.year Fields.mpg Fields.fuel Fields.transmission
       Fields.notes Fields.owner Fields.isElectric castString castNumber
       required_ok min_fails stored with_default].
  destruct (String.eqb_spec m ""); [contradiction|]. cbn [negb].
  rewrite (proj2 (Z.ltb_ge y 1885) Hy1).
  rewrite (proj2 (Z.ltb_ge g 0) Hg0).
  reflexivity.
Qed.

(** X12. The message of a login without credentials is shown once.  For a
    session without a user and a body whose username or password is
    missing or empty, POST /login looks nothing up and redirects to the
    entry page; the next GET / renders the login page with the message
    "Username and password required.", and the one after renders it
    without a message.  The database is as it was. *)
Theorem missing_credentials_message_is_shown_once :
  forall (w : world) (b : Body.t) (p : string) (t : nat) (req1 req2 : request),
    Session.userId (session w) = None ->
    js_not (Body.username b) || js_not (Body.password b) = true ->
    serve_all bcrypt_hash bcrypt_compare
              [(POST_login, mkRequest b p t); (GET_root, req1); (GET_root, req2)] w =
      ([Redirect "/";
        RenderLogin "Login • Car Tracker" (Some "Username and password required.");
        RenderLogin "Login • Car Tracker" None],
       mkWorld Session.empty (database w)).
Proof.
  intros [[uid fl] d] b p t req1 req2 Hw Hb. cbn in Hw. subst uid.
  cbn [serve_all].
  assert (E : serve bcrypt_hash bcrypt_compare POST_login (mkRequest b p t)
                    (mkWorld (Session.mk None fl) d) =
              (Redirect "/",
               mkWorld (Session.mk None (Some "Username and password required.")) d)).
  { unfold serve, app, flash_middleware, post_login.
    cbn [body]. rewrite Hb. reflexivity. }
  rewrite E. reflexivity.
Qed.

End Forms.

Section Identity.

Variable bcrypt_hash : string -> string.
Variable bcrypt_compare : string -> string -> bool.

Ltac same_user_step :=
  first
    [ preserves_step
    | let s := fresh "s" in
      let d := fresh "d" in
      let HL := fresh "HL" in
      apply preserves_await; intros s d HL; exact HL
    | let HL := fresh "HL" in
      solve [intros [[? ?] ?] HL; exact HL] ].

(** X15. A logged-in client stays who it is: on every route but
    POST /login and POST /logout, a session that holds a user holds the
    same user afterwards; the demo gate in particular never replaces a
    user that is there. *)
Theorem session_user_is_kept :
  forall (r : route) (req : request) (w : world) (a : ObjectId),
    r <> POST_login ->
    r <> POST_logout ->
    Session.userId (session w) = Some a ->
    Session.userId (session (snd (serve bcrypt_hash bcrypt_compare r req w))) = Some a.
Proof.
  intros r req w a Hlogin Hlogout Ha.
  assert (Hgate : forall next,
             preserves (fun w => Session.userId (session w) = Some a) next ->
             preserves (fun w => Session.userId (session w) = Some a)
                       (ensureLoggedInOrDemo bcrypt_hash next)).
  { intros next Hn w' Hw'. rewrite ensureLoggedInOrDemo_run.
    apply Hn. unfold attach_demo. rewrite Hw'. exact Hw'. }
  apply (serve_after_flash bcrypt_hash bcrypt_compare
           (fun w => Session.userId (session w) = Some a)); [exact Ha|].
  intros fl.
  destruct r; try contradiction; try apply Hgate;
    unfold requireAuth, get_root, get_dashboard, post_cars,
      post_cars_id_update, post_cars_id_delete, get_api_me, get_data,
      post_add, post_modify, post_delete;
    repeat same_user_step.
Qed.

End Identity.

(** ** The properties above on the sample store *)

Lemma Sample_ids_distinct : NoDup (map Car._id (cars Sample.store)).
Proof. cbn. repeat constructor; cbn; intuition discriminate. Qed.

Lemma Sample_ids_fresh : ids_fresh Sample.store.
Proof.
  split; [exact Sample_ids_distinct|].
  cbn. repeat constructor; cbn; lia.
Qed.

Lemma Sample_names_distinct : NoDup (usernames Sample.store).
Proof. cbn. repeat constructor; cbn; intuition discriminate. Qed.

Lemma reading_routes_keep_the_cars_witness :
  let rs := [(GET_root, Sample.at_time 40 Body.empty);
             (POST_login, Sample.at_time 41 (Sample.login_body "alice" "wonderland"));
             (GET_dashboard, Sample.at_time 42 Body.empty);
             (GET_data, Sample.at_time 43 Body.empty);
             (POST_logout, Sample.at_time 44 Body.empty);
             (Other, Sample.at_time 45 Body.empty)] in
  forallb (fun x => negb (writes_cars (fst x))) rs = true /\
  cars (database (snd (serve_all Sample.hash Sample.compare rs Sample.anonymous))) =
  cars (database Sample.anonymous).
Proof.
  split; [reflexivity|].
  exact (reading_routes_keep_the_cars Sample.hash Sample.compare
           [(GET_root, Sample.at_time 40 Body.empty);
            (POST_login, Sample.at_time 41 (Sample.login_body "alice" "wonderland"));
            (GET_dashboard, Sample.at_time 42 Body.empty);
            (GET_data, Sample.at_time 43 Body.empty);
            (POST_logout, Sample.at_time 44 Body.empty);
            (Other, Sample.at_time 45 Body.empty)]
           Sample.anonymous eq_refl).
Defined.

Lemma other_owners_cars_are_untouched_witness :
  let req := mkRequest (Body.with_id (Sample.car_body "Mine" 2021 1 "diesel" "manual")
                                     (JStr Sample.id_leaf)) Sample.id_leaf 40 in
  Session.userId (session Sample.as_alice) = Some 1%N /\
  foreign_cars 1%N
    (database (snd (serve Sample.hash Sample.compare POST_modify req Sample.as_alice))) =
  foreign_cars 1%N (database Sample.as_alice).
Proof.
  split; [reflexivity|].
  exact (other_owners_cars_are_untouched Sample.hash Sample.compare POST_modify
           (mkRequest (Body.with_id (Sample.car_body "Mine" 2021 1 "diesel" "manual")
                                    (JStr Sample.id_leaf)) Sample.id_leaf 40)
           Sample.as_alice 1%N eq_refl).
Defined.

Lemma demo_account_is_shared_witness :
  Session.userId (session Sample.anonymous) = None /\
  exists demo,
    let w1 := snd (serve Sample.hash Sample.compare GET_data
                         (Sample.at_time 40 Body.empty) Sample.anonymous) in
    In demo (users (database w1)) /\
    User.username demo = "demo" /\
    Session.userId (session w1) = Some (User._id demo) /\
    forall (s2 : Session.t) (req2 : request),
      Session.userId s2 = None ->
      snd (serve Sample.hash Sample.compare GET_data req2 (mkWorld s2 (database w1))) =
      mkWorld (Session.mk (Some (User._id demo)) None) (database w1).
Proof.
  split; [reflexivity|].
  exact (demo_account_is_shared Sample.hash Sample.compare
           (Sample.at_time 40 Body.empty) Sample.anonymous eq_refl).
Defined.

Lemma usernames_stay_unique_witness :
  let rs := [(POST_login, Sample.at_time 40 (Sample.login_body "carol" "s3cret"));
             (GET_data, Sample.at_time 41 Body.empty);
             (POST_logout, Sample.at_time 42 Body.empty);
             (GET_data, Sample.at_time 43 Body.empty);
             (POST_login, Sample.at_time 44 (Sample.login_body "carol" "other"))] in
  NoDup (usernames (database Sample.anonymous)) /\
  NoDup (usernames
           (database (snd (serve_all Sample.hash Sample.compare rs Sample.anonymous)))).
Proof.
  split; [exact Sample_names_distinct|].
  exact (usernames_stay_unique Sample.hash Sample.compare
           [(POST_login, Sample.at_time 40 (Sample.login_body "carol" "s3cret"));
            (GET_data, Sample.at_time 41 Body.empty);
            (POST_logout, Sample.at_time 42 Body.empty);
            (GET_data, Sample.at_time 43 Body.empty);
            (POST_login, Sample.at_time 44 (Sample.login_body "carol" "other"))]
           Sample.anonymous Sample_names_distinct).
Defined.

Lemma delete_removes_exactly_the_named_car_witness :
  let w' := with_cars (consume_flash Sample.as_alice)
                      (without_id 3%N (cars (database Sample.as_alice))) in
  (NoDup (map Car._id (cars (database Sample.as_alice))) /\
   Session.userId (session Sample.as_alice) = Some 1%N /\
   In Sample.civic (cars (database Sample.as_alice)) /\
   Car.owner Sample.civic = Some 1%N /\
   castObjectId (JStr Sample.id_civic) = Some (Car._id Sample.civic)) /\
  serve Sample.hash Sample.compare POST_delete
        (mkRequest (Body.with_id Body.empty (JStr Sample.id_civic)) "" 40)
        Sample.as_alice =
    (Json 200 (CarsBody (cars_of w')), w') /\
  serve Sample.hash Sample.compare POST_cars_id_delete
        (mkRequest Body.empty Sample.id_civic 40) Sample.as_alice =
    (Redirect "/dashboard", w').
Proof.
  assert (Hin : In Sample.civic (cars (database Sample.as_alice))).
  { cbn. auto. }
  split.
  - repeat split; try exact Hin; try reflexivity. exact Sample_ids_distinct.
  - exact (delete_removes_exactly_the_named_car Sample.hash Sample.compare
             Sample.as_alice 1%N Sample.civic Sample.id_civic Body.empty "" 40%nat
             Sample_ids_distinct eq_refl Hin eq_refl eq_refl).
Defined.

Lemma modify_replaces_exactly_the_named_car_witness :
  let b := Body.mk JUndefined JUndefined (JStr Sample.id_civic) (JStr " Civic Si ")
                   (JNum (Num 1200)) (JNum (Num (-3))) (JStr "") (JStr "rocket")
                   (JStr "on") (JStr "") in
  let c' := Car.mk 3%N (Some 1%N) (Some " Civic Si ") 1200 (-3) (Some "")
                   (Some "rocket") true (Some "") 10 40 in
  let w' := with_cars (consume_flash Sample.as_alice)
                      (replaced 3%N c' (cars (database Sample.as_alice))) in
  (NoDup (map Car._id (cars (database Sample.as_alice))) /\
   Session.userId (session Sample.as_alice) = Some 1%N /\
   In Sample.civic (cars (database Sample.as_alice)) /\
   Car.owner Sample.civic = Some 1%N /\
   castObjectId (JStr Sample.id_civic) = Some (Car._id Sample.civic)) /\
  serve Sample.hash Sample.compare POST_modify (mkRequest b "" 40) Sample.as_alice =
    (Json 200 (CarsBody (cars_of w')), w').
Proof.
  assert (Hin : In Sample.civic (cars (database Sample.as_alice))).
  { cbn. auto. }
  split.
  - repeat split; try exact Hin; try reflexivity. exact Sample_ids_distinct.
  - exact (modify_replaces_exactly_the_named_car Sample.hash Sample.compare
             Sample.as_alice 1%N Sample.civic Sample.id_civic
             JUndefined JUndefined (JStr "on") " Civic Si " "" "rocket" ""
             1200 (-3) "" 40%nat
             Sample_ids_distinct eq_refl Hin eq_refl eq_refl).
Defined.

Lemma add_then_delete_restores_the_cars_witness :
  let b := Sample.car_body "Civic" 2020 35 "gasoline" "auto" in
  let out := serve_all Sample.hash Sample.compare
               [(POST_add, mkRequest b "" 40);
                (POST_delete,
                 mkRequest (Body.with_id Body.empty (JStr "000000000000000000000006"))
                           "" 41)]
               Sample.as_alice in
  (ids_fresh (database Sample.as_alice) /\
   Session.userId (session Sample.as_alice) = Some 1%N /\
   car_fields b "Civic" 2020 35 "gasoline" "auto" /\
   1885 <= 2020 /\ 0 < 35 /\
   castObjectId (JStr "000000000000000000000006") =
     Some (nextId (database Sample.as_alice))) /\
  fst out = [Redirect "/dashboard"; Json 200 (CarsBody (cars_of Sample.as_alice))] /\
  cars (database (snd out)) = cars (database Sample.as_alice) /\
  users (database (snd out)) = users (database Sample.as_alice) /\
  session (snd out) = session (consume_flash Sample.as_alice).
Proof.
  assert (Hf : car_fields (Sample.car_body "Civic" 2020 35 "gasoline" "auto")
                          "Civic" 2020 35 "gasoline" "auto").
  { unfold car_fields. cbn.
    repeat split; try reflexivity; try discriminate; auto. }
  assert (Hy : 1885 <= 2020) by lia.
  assert (Hg : 0 < 35) by lia.
  split.
  - repeat split; try reflexivity; try apply Sample_ids_fresh; try apply Hf; lia.
  - exact (add_then_delete_restores_the_cars Sample.hash Sample.compare
             Sample.as_alice 1%N (Sample.car_body "Civic" 2020 35 "gasoline" "auto")
             "" 40%nat "Civic" 2020 35 "gasoline" "auto"
             "000000000000000000000006" Body.empty "" 41%nat
             Sample_ids_fresh eq_refl Hf Hy Hg eq_refl).
Defined.

Lemma form_create_fills_the_defaults_witness :
  let b := Body.mk JUndefined JUndefined JUndefined (JStr " Model T ") (JStr "1908")
                   (JStr " 0 ") (JStr "") JUndefined (JStr "true") JNull in
  (Session.userId (session Sample.as_alice) = Some 1%N /\
   Body.model b = JStr " Model T " /\ " Model T " <> "" /\
   Number (Body.year b) = Num 1908 /\ 1885 <= 1908 /\
   Number (Body.mpg b) = Num 0 /\ 0 <= 0 /\
   truthy (Body.notes b) = false /\
   truthy (Body.fuel b) = false /\
   truthy (Body.transmission b) = false) /\
  serve Sample.hash Sample.compare POST_cars (mkRequest b "" 40) Sample.as_alice =
    (Redirect "/dashboard",
     with_car (consume_flash Sample.as_alice)
       (Car.mk 6%N (Some 1%N) (Some " Model T ") 1908 0 (Some "")
               (Some "gasoline") true (Some "auto") 40 40)).
Proof.
  assert (Hne : " Model T " <> "") by discriminate.
  assert (Hy : 1885 <= 1908) by lia.
  assert (Hg : 0 <= 0) by lia.
  split.
  - repeat split; try reflexivity; try assumption.
  - exact (form_create_fills_the_defaults Sample.hash Sample.compare
             Sample.as_alice 1%N
             (Body.mk JUndefined JUndefined JUndefined (JStr " Model T ") (JStr "1908")
                      (JStr " 0 ") (JStr "") JUndefined (JStr "true") JNull)
             "" 40%nat " Model T " 1908 0
             eq_refl eq_refl Hne eq_refl Hy eq_refl Hg eq_refl eq_refl eq_refl).
Defined.

Lemma missing_credentials_message_is_shown_once_witness :
  let b := Sample.login_body "alice" "" in
  (Session.userId (session Sample.anonymous) = None /\
   js_not (Body.username b) || js_not (Body.password b) = true) /\
  serve_all Sample.hash Sample.compare
            [(POST_login, mkRequest b "" 40);
             (GET_root, Sample.at_time 41 Body.empty);
             (GET_root, Sample.at_time 42 Body.empty)]
            Sample.anonymous =
    ([Redirect "/";
      RenderLogin "Login • Car Tracker" (Some "Username and password required.");
      RenderLogin "Login • Car Tracker" None],
     mkWorld Session.empty (database Sample.anonymous)).
Proof.
  split; [split; reflexivity|].
  exact (missing_credentials_message_is_shown_once Sample.hash Sample.compare
           Sample.anonymous (Sample.login_body "alice" "") "" 40%nat
           (Sample.at_time 41 Body.empty) (Sample.at_time 42 Body.empty)
           eq_refl eq_refl).
Defined.

Lemma session_user_is_kept_witness :
  (GET_data <> POST_login /\ GET_data <> POST_logout /\
   Session.userId (session Sample.as_bob) = Some 2%N) /\
  Session.userId
    (session (snd (serve Sample.hash Sample.compare GET_data
                         (Sample.at_time 40 Body.empty) Sample.as_bob))) = Some 2%N.
Proof.
  assert (H1 : GET_data <> POST_login) by discriminate.
  assert (H2 : GET_data <> POST_logout) by discriminate.
  split; [repeat split; assumption|].
  exact (session_user_is_kept Sample.hash Sample.compare GET_data
           (Sample.at_time 40 Body.empty) Sample.as_bob 2%N H1 H2 eq_refl).
Defined.

Lemma dashboard_lists_latest_first_witness :
  (Session.userId (session Sample.as_alice) = Some (User._id Sample.alice) /\
   fst (User_findById (Some (User._id Sample.alice)) (database Sample.as_alice)) =
     Ok (Some Sample.alice)) /\
  exists listed,
    serve Sample.hash Sample.compare GET_dashboard (Sample.at_time 40 Body.empty)
          Sample.as_alice =
      (RenderDashboard "Dashboard • Car Tracker"
                       (Session.flash (session Sample.as_alice)) Sample.alice listed,
       consume_flash Sample.as_alice) /\
    Permutation (cars_of Sample.as_alice) listed /\
    StronglySorted newer_first listed.
Proof.
  split; [split; reflexivity|].
  exact (dashboard_lists_latest_first Sample.hash Sample.compare
           (Sample.at_time 40 Body.empty) Sample.as_alice Sample.alice
           eq_refl eq_refl).
Defined.

Lemma add_then_data_lists_the_car_witness :
  let b := Body.mk JUndefined JUndefined JUndefined (JStr "  Civic ")
                   (JNum (Num 2020)) (JNum (Num 35)) (JStr " daily driver ")
                   (JStr "hybrid") (JStr "on") (JStr "auto") in
  let w0 := attach_demo Sample.hash (consume_flash Sample.anonymous) in
  let c := added_car b "  Civic " 2020 35 "hybrid" "auto" 40 w0 in
  (car_fields b "  Civic " 2020 35 "hybrid" "auto" /\ 1885 <= 2020 /\ 0 < 35) /\
  serve_all Sample.hash Sample.compare
            [(POST_add, mkRequest b "" 40); (GET_data, Sample.at_time 41 Body.empty)]
            Sample.anonymous =
    ([Redirect "/dashboard"; Json 200 (CarsBody (cars_of w0 ++ [c]))],
     with_car w0 c).
Proof.
  assert (Hf : car_fields
                 (Body.mk JUndefined JUndefined JUndefined (JStr "  Civic ")
                          (JNum (Num 2020)) (JNum (Num 35)) (JStr " daily driver ")
                          (JStr "hybrid") (JStr "on") (JStr "auto"))
                 "  Civic " 2020 35 "hybrid" "auto").
  { unfold car_fields. cbn.
    repeat split; try reflexivity; try discriminate; auto.
    right. right. eexists. reflexivity. }
  assert (Hy : 1885 <= 2020) by lia.
  assert (Hg : 0 < 35) by lia.
  split; [repeat split; try apply Hf; lia|].
  exact (add_then_data_lists_the_car Sample.hash Sample.compare
           (Body.mk JUndefined JUndefined JUndefined (JStr "  Civic ")
                    (JNum (Num 2020)) (JNum (Num 35)) (JStr " daily driver ")
                    (JStr "hybrid") (JStr "on") (JStr "auto"))
           "" 40%nat Sample.anonymous "  Civic " 2020 35 "hybrid" "auto"
           (Sample.at_time 41 Body.empty) Hf Hy Hg).
Defined.

(** ** White space beyond ASCII *)

(** [trim] strips the no-break space and the ideographic space like the
    blank; a model made of them only is blank, and POST /add, which trims
    the model after its check for missing fields, hands [Car.create] an
    empty model. *)
Lemma trim_strips_wide_spaces :
  trim (Sample.nbsp ++ " Civic Si" ++ Sample.wide_space ++ Sample.nbsp) = "Civic Si" /\
  trim (Sample.nbsp ++ Sample.wide_space) = "" /\
  fst (serve Sample.hash Sample.compare POST_add
             (mkRequest (Sample.car_body Sample.nbsp 2020 35 "gasoline" "auto") "" 40)
             Sample.as_alice) =
    Json 500 (ErrorBody "Failed to add car.").
Proof. repeat split; reflexivity. Qed.
